(** * SaaS starter backend: registration, login, blog listing, contact

    A shallow embedding of [main.py] (FastAPI handlers over a MongoDB
    document store, passlib password hashing, python-jose tokens) and the
    properties its specification states about it.

    Python dictionaries are finite maps from strings to values, the
    module-level [db] handle and the two sources of nondeterminism the
    handlers read ([datetime.utcnow()] and the random bytes behind salts
    and ObjectIds) are threaded through a state-and-exception monad. *)

From Stdlib Require Import ZArith NArith List String Ascii Bool Lia.
From stdpp Require Import base gmap strings list fin_maps.

Open Scope string_scope.

(** ** Values and documents *)

(** [bson.ObjectId], the store's native identifier type. *)
Definition ObjectId := N.

(** The Python values that travel through the handlers.  [VDatetime]
    carries microseconds since the epoch. *)
#[warnings="-register-all"]
Inductive Value : Type :=
| VNone
| VBool (b : bool)
| VInt (z : Z)
| VStr (s : string)
| VDatetime (t : Z)
| VObjectId (o : ObjectId)
| VList (l : list Value)
| VDict (d : list (string * Value)).

(** A Python [dict] with string keys. *)
Abbreviation Doc := (gmap string Value).

(** [d.get(k)] and [d.get(k, dflt)]. *)
Definition py_get (d : Doc) (k : string) : Value := default VNone (d !! k).
Definition py_get_or (d : Doc) (k : string) (dflt : Value) : Value :=
  default dflt (d !! k).

(** Truth value of [find_one]'s result in [if existing:] / [if not user:]:
    [None] and the empty dict are false, everything else is true. *)
Definition truthy (o : option Doc) : bool :=
  match o with
  | None => false
  | Some d => negb (bool_decide (d = ∅))
  end.

Definition is_str (v : Value) : bool :=
  match v with VStr _ => true | _ => false end.

Definition is_native_id (v : Value) : bool :=
  match v with VObjectId _ => true | _ => false end.

(** ** Exceptions and the handler monad *)

Inductive Exn : Type :=
| HTTPException (status_code : Z) (detail : string)
| PyError (cls : string).

Inductive Outcome (A : Type) : Type :=
| Ok (a : A)
| Raise (e : Exn).
Arguments Ok {A} a.
Arguments Raise {A} e.

(** A stored document: MongoDB keeps every document under an [_id]; no
    handler supplies one, so it is always the ObjectId the driver
    generated at insertion. *)
Record StoredDoc : Type := mkStored {
  sd_id : ObjectId;
  sd_fields : Doc
}.

(** The dict a query hands back for a stored document. *)
Definition materialise (sd : StoredDoc) : Doc :=
  <["_id" := VObjectId (sd_id sd)]> (sd_fields sd).

(** A MongoDB database handle.  [reachable = false] is a handle whose
    server cannot be selected: [db] is not [None], yet every operation
    raises (the case [test_database] reports as "Connected but Error"). *)
Record Database : Type := mkDatabase {
  reachable : bool;
  collections : gmap string (list StoredDoc)
}.

Record World : Type := mkWorld {
  w_db : option Database;      (* the module-level [db]; [None] when not initialised *)
  w_clock : nat -> Z;          (* successive readings of [datetime.utcnow()] *)
  w_ticks : nat;
  w_rand : nat -> N;           (* successive draws of random bytes *)
  w_draws : nat
}.

Definition M (A : Type) : Type := World -> Outcome A * World.

Definition ret {A} (a : A) : M A := fun w => (Ok a, w).
Definition raise {A} (e : Exn) : M A := fun w => (Raise e, w).
Definition bind {A B} (m : M A) (k : A -> M B) : M B :=
  fun w =>
    match m w with
    | (Ok a, w') => k a w'
    | (Raise e, w') => (Raise e, w')
    end.
Definition lift {A} (o : Outcome A) : M A := fun w => (o, w).

Notation "'let!' x ':=' e 'in' k" := (bind e (fun x => k))
  (at level 10, x pattern, e at level 100, k at level 200).
Notation "e1 '>>' e2" := (bind e1 (fun _ => e2))
  (at level 100, e2 at level 200, right associativity).

(** The current reading of the clock and of the random source, and the
    world once it has been consumed. *)
Definition now (w : World) : Z := w_clock w (w_ticks w).
Definition tick (w : World) : World :=
  mkWorld (w_db w) (w_clock w) (S (w_ticks w)) (w_rand w) (w_draws w).
Definition entropy (w : World) : N := w_rand w (w_draws w).
Definition draw (w : World) : World :=
  mkWorld (w_db w) (w_clock w) (w_ticks w) (w_rand w) (S (w_draws w)).

Definition utcnow : M Z := fun w => (Ok (now w), tick w).
Definition urandom : M N := fun w => (Ok (entropy w), draw w).

Definition get_db : M (option Database) := fun w => (Ok (w_db w), w).

(** ** The pymongo operations the handlers call *)

Abbreviation Filter := (list (string * Value)).

Definition scalar_eqb (q v : Value) : bool :=
  match q, v with
  | VNone, VNone => true
  | VBool a, VBool b => Bool.eqb a b
  | VInt a, VInt b => Z.eqb a b
  | VStr a, VStr b => String.eqb a b
  | VDatetime a, VDatetime b => Z.eqb a b
  | VObjectId a, VObjectId b => N.eqb a b
  | _, _ => false
  end.

(** Equality match of a query value against a field: the field equals
    it, or is an array holding it. *)
Definition value_matches (q v : Value) : bool :=
  scalar_eqb q v ||
  match v with
  | VList l => existsb (scalar_eqb q) l
  | _ => false
  end.

(** A filter is a conjunction of field equalities; a [None] query also
    matches a missing field. *)
Definition doc_matches (f : Filter) (d : Doc) : bool :=
  forallb (fun '(k, q) =>
             match d !! k with
             | Some v => value_matches q v
             | None => scalar_eqb q VNone
             end) f.

Definition coll (d : Database) (name : string) : list StoredDoc :=
  default [] (collections d !! name).

Definition set_coll (d : Database) (name : string) (c : list StoredDoc) : Database :=
  mkDatabase (reachable d) (<[name := c]> (collections d)).

Definition set_db (w : World) (d : Database) : World :=
  mkWorld (Some d) (w_clock w) (w_ticks w) (w_rand w) (w_draws w).

(** Every operation on [db[name]] goes through here: subscripting [None]
    is a [TypeError], an unreachable server a driver error. *)
Definition with_db {A} (k : Database -> M A) : M A :=
  fun w =>
    match w_db w with
    | None => (Raise (PyError "TypeError"), w)
    | Some d =>
        if reachable d then k d w
        else (Raise (PyError "ServerSelectionTimeoutError"), w)
    end.

Definition find (name : string) (f : Filter) (d : Database) : list Doc :=
  List.filter (doc_matches f) (map materialise (coll d name)).

Definition find_one (name : string) (f : Filter) : M (option Doc) :=
  with_db (fun d => ret (head (find name f d))).

Definition count_documents (name : string) (f : Filter) : M nat :=
  with_db (fun d => ret (length (find name f d))).

(** BSON keeps a datetime as whole milliseconds: what is written with
    microseconds is stored, and read back, cut down to the millisecond. *)
Definition ms_floor (t : Z) : Z := (t / 1000 * 1000)%Z.

Fixpoint to_bson (v : Value) : Value :=
  match v with
  | VDatetime t => VDatetime (ms_floor t)
  | VList l => VList (map to_bson l)
  | VDict d => VDict (map (fun kv => let '(k, x) := kv in (k, to_bson x)) d)
  | _ => v
  end.

(** [insert_one] draws a fresh ObjectId, writes it into the caller's dict
    under [_id] and appends the document in its BSON form; it yields the
    identifier and the dict as the caller sees it afterwards.  (The dicts the handlers
    insert never carry an [_id] of their own.) *)
Definition insert_one (name : string) (doc : Doc) : M (ObjectId * Doc) :=
  with_db (fun d =>
    let! oid := urandom in
    fun w =>
      (Ok (oid, <["_id" := VObjectId oid]> doc),
       set_db w (set_coll d name (coll d name ++ [mkStored oid (to_bson <$> doc)])))).

Fixpoint insert_many_loop (docs : list Doc) : M (list StoredDoc) :=
  match docs with
  | [] => ret []
  | doc :: rest =>
      let! oid := urandom in
      let! tl := insert_many_loop rest in
      ret (mkStored oid (to_bson <$> doc) :: tl)
  end.

Definition insert_many (name : string) (docs : list Doc) : M (list ObjectId) :=
  with_db (fun d =>
    let! sds := insert_many_loop docs in
    fun w =>
      (Ok (map sd_id sds), set_db w (set_coll d name (coll d name ++ sds)))).

(** ** Third-party interfaces *)

(** [passlib.context.CryptContext]: [hash] consumes random bytes for the
    salt, [verify] receives whatever the caller found under
    [password_hash]; either may raise. *)
Record CryptContext : Type := mkCryptContext {
  ctx_hash : N -> string -> Outcome string;
  ctx_verify : string -> Value -> Outcome bool
}.

(** *** The bcrypt scheme of a passlib context

    A bcrypt hash string is an identifier ([$2b$] for new hashes), a
    two-digit cost and [$], 22 characters of salt and 31 characters of
    checksum.  The Blowfish-based digest itself is left abstract: [raw]
    maps the configuration prefix and the secret to the checksum's value
    and may reject its input (a cost out of range, an identifier or a
    secret the backend does not support). *)

Fixpoint str_take (n : nat) (s : string) : string :=
  match n, s with
  | S n', String a s' => String a (str_take n' s')
  | _, _ => EmptyString
  end.

Fixpoint str_drop (n : nat) (s : string) : string :=
  match n, s with
  | S n', String _ s' => str_drop n' s'
  | _, _ => s
  end.

Definition bcrypt_alphabet : string :=
  "./ABCDEFGHIJKLMNOPQRSTUVWXYZabcdefghijklmnopqrstuvwxyz0123456789".

Definition b64char (n : N) : ascii :=
  default "."%char (String.get (N.to_nat (n mod 64)) bcrypt_alphabet).

(** [k] characters of the bcrypt alphabet encoding [n], low digit first. *)
Fixpoint b64digits (k : nat) (n : N) : string :=
  match k with
  | O => EmptyString
  | S k' => String (b64char n) (b64digits k' (n / 64))
  end.

Definition bcrypt_idents : list string :=
  ["$2b$"; "$2a$"; "$2y$"; "$2x$"; "$2$"].

Definition bcrypt_ident_of (h : string) : option string :=
  List.find (fun i => String.prefix i h) bcrypt_idents.

Definition in_alphabet (a : ascii) : bool :=
  existsb (Ascii.eqb a) (list_ascii_of_string bcrypt_alphabet).

Definition is_digit (a : ascii) : bool :=
  (Nat.leb 48 (nat_of_ascii a) && Nat.leb (nat_of_ascii a) 57)%bool.

Definition str_all (f : ascii -> bool) (s : string) : bool :=
  forallb f (list_ascii_of_string s).

(** Split a hash string into configuration and checksum: after the
    identifier come two digits of cost, a [$], 22 salt characters and 31
    checksum characters, all of the bcrypt alphabet; anything else does
    not parse. *)
Definition bcrypt_parse (ident h : string) : option (string * string) :=
  let n := String.length ident in
  let cost := str_take 2 (str_drop n h) in
  let sep := str_take 1 (str_drop (n + 2) h) in
  let salt := str_take 22 (str_drop (n + 3) h) in
  let chk := str_drop (n + 25) h in
  if (Nat.eqb (String.length h) (n + 25 + 31)
      && str_all is_digit cost && String.eqb sep "$"
      && str_all in_alphabet salt && str_all in_alphabet chk)%bool
  then Some (str_take (n + 25) h, chk)
  else None.

(** The checks on the secret before it reaches the digest: at most 4096
    bytes, and no NUL character. *)
Definition has_nul (s : string) : bool :=
  existsb (Ascii.eqb zero) (list_ascii_of_string s).

Definition check_secret (secret : string) : Outcome unit :=
  if N.ltb 4096 (N.of_nat (String.length secret)) then
    Raise (PyError "PasswordSizeError")
  else if has_nul secret then Raise (PyError "NullPasswordError")
  else Ok tt.

Section Bcrypt.

Variable raw : string -> string -> Outcome N.

Definition bcrypt_digest (config secret : string) : Outcome N :=
  match check_secret secret with
  | Ok _ => raw config secret
  | Raise e => Raise e
  end.

Definition bcrypt_hash (entropy : N) (secret : string) : Outcome string :=
  let config := "$2b$12$" +:+ b64digits 22 entropy in
  match bcrypt_digest config secret with
  | Ok d => Ok (config +:+ b64digits 31 d)
  | Raise e => Raise e
  end.

(** [CryptContext.verify]: [None] never verifies, a value that is not a
    string is a type error, a string no scheme identifies is an
    [UnknownHashError], one that does not parse a [ValueError] (or one of
    its subclasses); otherwise the checksum is recomputed and compared. *)
Definition bcrypt_verify (secret : string) (hashed : Value) : Outcome bool :=
  match hashed with
  | VNone => Ok false
  | VStr h =>
      match bcrypt_ident_of h with
      | None => Raise (PyError "UnknownHashError")
      | Some ident =>
          match bcrypt_parse ident h with
          | None => Raise (PyError "ValueError")
          | Some (config, chk) =>
              match bcrypt_digest config secret with
              | Ok d => Ok (String.eqb (b64digits 31 d) chk)
              | Raise e => Raise e
              end
          end
      end
  | _ => Raise (PyError "TypeError")
  end.

Definition bcrypt_context : CryptContext :=
  mkCryptContext bcrypt_hash bcrypt_verify.

End Bcrypt.

(** Request and response models. *)
Record RegisterRequest : Type := mkRegisterRequest {
  reg_name : string;
  reg_email : string;
  reg_password : string
}.

Record LoginRequest : Type := mkLoginRequest {
  login_email : string;
  login_password : string
}.

Record ContactRequest : Type := mkContactRequest {
  contact_name : string;
  contact_email : string;
  contact_subject : option string;
  contact_message : string;
  contact_meta : option (list (string * Value))
}.

(** [{"token": token, "user": user}] *)
Record AuthResponse : Type := mkAuthResponse {
  resp_token : string;
  resp_user : Doc
}.

(** [{"items": docs}] *)
Record BlogsResponse : Type := mkBlogsResponse {
  resp_items : list Doc
}.

(** [{"status": "ok", "id": res_id}] *)
Record ContactResponse : Type := mkContactResponse {
  resp_status : string;
  resp_id : string
}.

Definition opt_str (o : option string) : Value :=
  match o with Some s => VStr s | None => VNone end.

Definition opt_dict (o : option (list (string * Value))) : Value :=
  match o with Some d => VDict d | None => VNone end.

Section Backend.

(** Python's [str()]; on an ObjectId it is the 24-digit hexadecimal form. *)
Variable py_str : Value -> string.

(** [pwd_context = CryptContext(schemes=["bcrypt"], deprecated="auto")] *)
Variable pwd_context : CryptContext.

(** python-jose's primitives: base64url of the JSON text of a mapping,
    and the signature of a message under an algorithm and a key. *)
Variable b64url_json : Doc -> string.
Variable jws_signature : string -> string -> string -> string.

(** [os.getenv("JWT_SECRET")] *)
Variable env_JWT_SECRET : option string.

Definition JWT_SECRET : string := default "supersecretkey" env_JWT_SECRET.
Definition JWT_ALG : string := "HS256".
Definition JWT_EXPIRES_MIN : Z := 60 * 24 * 7.

(** [timedelta(minutes=m)], in microseconds. *)
Definition timedelta_minutes (m : Z) : Z := m * 60 * 1000000.

(** *** [jose.jwt.encode] *)

(** A [datetime] under a time claim becomes whole seconds since the epoch. *)
Definition intdate (v : Value) : Value :=
  match v with
  | VDatetime t => VInt (t / 1000000)
  | _ => v
  end.

Definition time_claims (claims : Doc) : Doc :=
  alter intdate "nbf" (alter intdate "iat" (alter intdate "exp" claims)).

(** JWS compact serialisation: header, payload and signature joined by dots. *)
Definition jwt_encode (claims : Doc) (key : string) (algorithm : string) : string :=
  let header : Doc := <["alg" := VStr algorithm]> {["typ" := VStr "JWT"]} in
  let signing_input := b64url_json header +:+ "." +:+ b64url_json (time_claims claims) in
  signing_input +:+ "." +:+ jws_signature algorithm key signing_input.

(** *** Helpers *)

Definition hash_password (password : string) : M string :=
  let! salt := urandom in
  lift (ctx_hash pwd_context salt password).

Definition verify_password (password : string) (hashed : Value) : M bool :=
  lift (ctx_verify pwd_context password hashed).

(** [expires_delta or timedelta(minutes=JWT_EXPIRES_MIN)]: a missing or
    zero delta is falsy. *)
Definition delta_or_default (expires_delta : option Z) : Z :=
  match expires_delta with
  | Some d => if Z.eqb d 0 then timedelta_minutes JWT_EXPIRES_MIN else d
  | None => timedelta_minutes JWT_EXPIRES_MIN
  end.

(** The range of [datetime], years 1 to 9999, in microseconds since the
    epoch. *)
Definition datetime_min : Z := -62135596800000000.
Definition datetime_max : Z := 253402300799999999.

Definition representable (t : Z) : bool :=
  (Z.leb datetime_min t && Z.leb t datetime_max)%bool.

(** [dt + delta]: an [OverflowError] when the sum leaves the range. *)
Definition datetime_add (t delta : Z) : Outcome Z :=
  if representable (t + delta) then Ok (t + delta)%Z
  else Raise (PyError "OverflowError").

Definition create_access_token (data : Doc) (expires_delta : option Z) : M string :=
  let to_encode := data in
  let! now := utcnow in
  let! expire := lift (datetime_add now (delta_or_default expires_delta)) in
  let to_encode := <["exp" := VDatetime expire]> to_encode in
  let encoded_jwt := jwt_encode to_encode JWT_SECRET JWT_ALG in
  ret encoded_jwt.

(** *** The [database] module's helpers *)

Definition with_gateway {A} (k : Database -> M A) : M A :=
  fun w =>
    match w_db w with
    | Some d =>
        if reachable d then k d w else (Raise (PyError "StoreUnavailable"), w)
    | None => (Raise (PyError "StoreUnavailable"), w)
    end.

(** Modelled from the spec: [get_documents] of the [database] module is
    not part of the sources.  The spec's gateway gives
    "find_many(collection, filter, limit) -> ordered sequence of record,
    length <= limit", an unreachable or uninitialised store surfacing as
    an explicit "unavailable" condition. *)
Definition get_documents (name : string) (f : Filter) (limit : Z) : M (list Doc) :=
  with_gateway (fun d => ret (take (Z.to_nat limit) (find name f d))).

(** Modelled from the spec: [create_document] of the [database] module
    is not part of the sources.  The spec's gateway gives
    "insert_one(collection, record) -> generated_id", and [contact]
    "stores the submitted record verbatim plus server-set timestamps"
    and "returns a generated identifier string". *)
Definition create_document (name : string) (data : Doc) : M string :=
  with_gateway (fun _ =>
    let! (oid, _) := insert_one name data in
    ret (py_str (VObjectId oid))).

Definition db_unavailable {A} : M A :=
  raise (HTTPException 500 "Database not available").

(** *** Routes *)

(** The [user_doc] literal of [register]. *)
Definition new_user_doc (payload : RegisterRequest) (password_hash : string)
    (created_at updated_at : Z) : Doc :=
  <["name" := VStr (reg_name payload)]>
  (<["email" := VStr (reg_email payload)]>
  (<["password_hash" := VStr password_hash]>
  (<["avatar_url" := VNone]>
  (<["plan" := VStr "free"]>
  (<["is_active" := VBool true]>
  (<["created_at" := VDatetime created_at]>
  (<["updated_at" := VDatetime updated_at]> ∅))))))).

Definition register (payload : RegisterRequest) : M AuthResponse :=
  let! db := get_db in
  match db with
  | None => db_unavailable
  | Some _ =>
      let! existing := find_one "user" [("email", VStr (reg_email payload))] in
      if truthy existing then
        raise (HTTPException 400 "Email already registered")
      else
        let! password_hash := hash_password (reg_password payload) in
        let! created_at := utcnow in
        let! updated_at := utcnow in
        let user_doc := new_user_doc payload password_hash created_at updated_at in
        let! (inserted_id, user_doc) := insert_one "user" user_doc in
        let! token :=
          create_access_token
            (<["sub" := VStr (py_str (VObjectId inserted_id))]>
             (<["email" := VStr (reg_email payload)]> ∅)) None in
        let user_doc := delete "password_hash" user_doc in
        let user_doc := <["_id" := VStr (py_str (VObjectId inserted_id))]> user_doc in
        ret (mkAuthResponse token user_doc)
  end.

Definition login (payload : LoginRequest) : M AuthResponse :=
  let! db := get_db in
  match db with
  | None => db_unavailable
  | Some _ =>
      let! found := find_one "user" [("email", VStr (login_email payload))] in
      if negb (truthy found) then
        raise (HTTPException 400 "Invalid credentials")
      else
        let user : Doc := default ∅ found in
        let! ok := verify_password (login_password payload)
                     (py_get_or user "password_hash" (VStr "")) in
        if negb ok then
          raise (HTTPException 400 "Invalid credentials")
        else
          let! token :=
            create_access_token
              (<["sub" := VStr (py_str (py_get user "_id"))]>
               (<["email" := py_get user "email"]> ∅)) None in
          match user !! "_id" with
          | None => raise (PyError "KeyError")
          | Some native =>
              let user := <["_id" := VStr (py_str native)]> user in
              let user := delete "password_hash" user in
              ret (mkAuthResponse token user)
          end
  end.

Definition seed_post (title slug excerpt : string) (tags : list string)
    (published_at created_at updated_at : Z) : Doc :=
  <["title" := VStr title]>
  (<["slug" := VStr slug]>
  (<["excerpt" := VStr excerpt]>
  (<["content" := VStr "Long form content..."]>
  (<["author" := VStr "Team"]>
  (<["tags" := VList (map VStr tags)]>
  (<["published" := VBool true]>
  (<["published_at" := VDatetime published_at]>
  (<["cover_image" := VNone]>
  (<["created_at" := VDatetime created_at]>
  (<["updated_at" := VDatetime updated_at]> ∅)))))))))).

Definition seed_posts : M (list Doc) :=
  let! p1 := utcnow in let! c1 := utcnow in let! u1 := utcnow in
  let! p2 := utcnow in let! c2 := utcnow in let! u2 := utcnow in
  let! p3 := utcnow in let! c3 := utcnow in let! u3 := utcnow in
  ret [ seed_post "Designing Trust in Fintech" "designing-trust-in-fintech"
          "How micro-interactions and clear copy build confidence in digital banking."
          ["design"; "fintech"] p1 c1 u1;
        seed_post "Pricing Psychology 101" "pricing-psychology-101"
          "Make tiers that guide choices without pressure."
          ["pricing"; "growth"] p2 c2 u2;
        seed_post "Your First 100 Users" "your-first-100-users"
          "Practical channels to get traction for your SaaS."
          ["growth"] p3 c3 u3 ].

Definition stringify_id (d : Doc) : Doc :=
  <["_id" := VStr (py_str (py_get d "_id"))]> d.

Definition list_blogs (limit : Z) : M BlogsResponse :=
  let! db := get_db in
  match db with
  | None => db_unavailable
  | Some _ =>
      let! count := count_documents "blogpost" [] in
      (if Nat.eqb count 0 then
         let! posts := seed_posts in
         match posts with
         | [] => ret tt
         | _ :: _ => let! _ := insert_many "blogpost" posts in ret tt
         end
       else ret tt) >>
      let! docs := get_documents "blogpost" [("published", VBool true)] limit in
      let docs := map stringify_id docs in
      ret (mkBlogsResponse docs)
  end.

Definition contact (payload : ContactRequest) : M ContactResponse :=
  let! db := get_db in
  match db with
  | None => db_unavailable
  | Some _ =>
      let doc : Doc :=
        <["name" := VStr (contact_name payload)]>
        (<["email" := VStr (contact_email payload)]>
        (<["subject" := opt_str (contact_subject payload)]>
        (<["message" := VStr (contact_message payload)]>
        (<["meta" := opt_dict (contact_meta payload)]> ∅)))) in
      let! created_at := utcnow in
      let doc := <["created_at" := VDatetime created_at]> doc in
      let! updated_at := utcnow in
      let doc := <["updated_at" := VDatetime updated_at]> doc in
      let! res_id := create_document "contactmessage" doc in
      ret (mkContactResponse "ok" res_id)
  end.

End Backend.

(** ** What a client sees *)

(** FastAPI turns an [HTTPException] into its status and detail, and any
    other exception that leaves a handler into a bare 500. *)
Definition client_view {A} (o : Outcome A) : Z * string :=
  match o with
  | Ok _ => (200%Z, "")
  | Raise (HTTPException status detail) => (status, detail)
  | Raise (PyError _) => (500%Z, "Internal Server Error")
  end.

Definition is_http_exception {A} (o : Outcome A) : bool :=
  match o with
  | Raise (HTTPException _ _) => true
  | _ => false
  end.

Definition is_ok {A} (o : Outcome A) : bool :=
  match o with Ok _ => true | Raise _ => false end.

(** The identifier a response document carries is a plain string. *)
Definition plain_id (d : Doc) : bool :=
  match d !! "_id" with
  | Some v => is_str v
  | None => false
  end.

(** The claims [register] and [login] hand to [create_access_token],
    after the expiry has been added. *)
Definition issued_claims (sub email : Value) (issued_at : Z) : Doc :=
  <["exp" := VDatetime (issued_at + 7 * 24 * 60 * 60 * 1000000)]>
  (<["sub" := sub]> (<["email" := email]> ∅)).

(** ** Concrete instances used to exercise the statements *)

Definition hex_alphabet : string := "0123456789abcdef".

Fixpoint hex_digits (k : nat) (n : N) (acc : string) : string :=
  match k with
  | O => acc
  | S k' =>
      hex_digits k' (n / 16)
        (String (default "0"%char (String.get (N.to_nat (n mod 16)) hex_alphabet)) acc)
  end.

Definition demo_str (v : Value) : string :=
  match v with
  | VObjectId o => hex_digits 24 o ""
  | VStr s => s
  | VNone => "None"
  | VBool true => "True"
  | VBool false => "False"
  | _ => ""
  end.

(** A stand-in digest: the length of the secret. *)
Definition demo_raw (config secret : string) : Outcome N :=
  Ok (N.of_nat (String.length secret)).

Definition demo_context : CryptContext := bcrypt_context demo_raw.

Definition demo_b64url_json (d : Doc) : string := "e30".
Definition demo_signature (alg key msg : string) : string := alg +:+ key.

Definition demo_world (db : option Database) : World :=
  mkWorld db (fun n => Z.of_nat n * 1000000)%Z 0 (fun n => N.of_nat n + 10)%N 0.

Definition empty_db : Database := mkDatabase true ∅.
Definition unreachable_db : Database := mkDatabase false ∅.

Definition alice : RegisterRequest :=
  mkRegisterRequest "Alice" "alice@example.com" "correct horse".

Definition alice_login : LoginRequest :=
  mkLoginRequest "alice@example.com" "correct horse".

Definition hello : ContactRequest :=
  mkContactRequest "Alice" "alice@example.com" None "Hello" None.

(** A user record that was stored without a password hash. *)
Definition bare_user : StoredDoc :=
  mkStored 7%N (<["email" := VStr "bob@example.com"]> ∅).

Definition bare_db : Database :=
  mkDatabase true (<["user" := [bare_user]]> ∅).

Definition bob : RegisterRequest :=
  mkRegisterRequest "Bob" "bob@example.com" "hunter2".

Definition bob_login : LoginRequest := mkLoginRequest "bob@example.com" "hunter2".
Definition alice_wrong : LoginRequest := mkLoginRequest "alice@example.com" "wrong".
Definition nobody : LoginRequest := mkLoginRequest "nobody@example.com" "whatever".

Definition demo_register := register demo_str demo_context demo_b64url_json demo_signature None.
Definition demo_login := login demo_str demo_context demo_b64url_json demo_signature None.
Definition demo_list_blogs := list_blogs demo_str.
Definition demo_contact := contact demo_str.

(** The world after Alice has registered next to the bare record. *)
Definition alice_world : World :=
  snd (demo_register alice (demo_world (Some bare_db))).

Definition alice_response : AuthResponse :=
  match fst (demo_register alice (demo_world (Some bare_db))) with
  | Ok r => r
  | Raise _ => mkAuthResponse "" ∅
  end.

(** The hash the demo context gives Alice's password in a fresh world. *)
Definition demo_hash : string :=
  match fst (hash_password demo_context "correct horse" (demo_world None)) with
  | Ok h => h
  | Raise _ => ""
  end.

Definition alice_db : Database := default empty_db (w_db alice_world).

Definition alice_record : Doc :=
  default ∅ (head (find "user" [("email", VStr "alice@example.com")] alice_db)).

Definition alice_hash : string :=
  match py_get alice_record "password_hash" with
  | VStr h => h
  | _ => ""
  end.

(** The demo posts [list_blogs] builds in a given world, and the records
    [insert_many] makes of them. *)
Definition seeds_at (w : World) : list Doc :=
  match fst (seed_posts w) with
  | Ok posts => posts
  | Raise _ => []
  end.

Definition seed_records (w : World) : list StoredDoc :=
  match fst (insert_many_loop (seeds_at w) w) with
  | Ok sds => sds
  | Raise _ => []
  end.

Definition seed_titles : list string :=
  ["Designing Trust in Fintech"; "Pricing Psychology 101"; "Your First 100 Users"].


(** A password with a NUL character in it. *)
Definition nul_password : string := "pass" +:+ String zero "word".

Definition mallory : RegisterRequest :=
  mkRegisterRequest "Mallory" "mallory@example.com" nul_password.

(** ** The diagnostic route, the steps of [list_blogs], the user schema *)

(** [try: body / except Exception as e: handler]. *)
Definition try_except {A} (body : M A) (handler : Exn -> M A) : M A :=
  fun w =>
    match body w with
    | (Ok a, w') => (Ok a, w')
    | (Raise e, w') => handler e w'
    end.

(** Strings are kept as their UTF-8 bytes.  A character is a byte that is
    not a continuation byte, together with the continuation bytes after it. *)
Definition is_continuation (a : ascii) : bool :=
  match a with
  | Ascii _ _ _ _ _ _ b6 b7 => b7 && negb b6
  end.

(** [s[:n]] and [len(s)], counted in characters. *)
Fixpoint utf8_take (n : nat) (s : string) : string :=
  match s with
  | EmptyString => EmptyString
  | String a s' =>
      if is_continuation a then String a (utf8_take n s')
      else match n with
           | O => EmptyString
           | S n' => String a (utf8_take n' s')
           end
  end.

Fixpoint utf8_length (s : string) : nat :=
  match s with
  | EmptyString => 0
  | String a s' => (if is_continuation a then 0 else 1) + utf8_length s'
  end.

(** [db.list_collection_names()]: the collections that have been written. *)
Definition list_collection_names : M (list string) :=
  with_db (fun d => ret (map fst (map_to_list (collections d)))).

(** Truth value of [os.getenv(...)]: unset and empty are both false. *)
Definition env_set (o : option string) : bool :=
  match o with
  | Some (String _ _) => true
  | _ => false
  end.

Section Diagnostics.

(** Python's [str(e)] on an exception. *)
Variable exn_str : Exn -> string.

(** [os.getenv("DATABASE_URL")] and [os.getenv("DATABASE_NAME")] *)
Variable env_DATABASE_URL : option string.
Variable env_DATABASE_NAME : option string.

Definition set_or_not (o : option string) : Value :=
  VStr (if env_set o then "✅ Set" else "❌ Not Set").

(** The [response] dict [test_database] starts from. *)
Definition initial_response : Doc :=
  <["backend" := VStr "✅ Running"]>
  (<["database" := VStr "❌ Not Available"]>
  (<["database_url" := set_or_not env_DATABASE_URL]>
  (<["database_name" := set_or_not env_DATABASE_NAME]>
  (<["connection_status" := VStr "Not Connected"]>
  (<["collections" := VList []]> ∅))))).

(** [str(e)[:80]], the first 80 characters of the message. *)
Definition short_error (e : Exn) : string := utf8_take 80 (exn_str e).

Definition test_database : M Doc :=
  let response := initial_response in
  try_except
    (let! db := get_db in
     match db with
     | Some _ =>
         let response := <["database" := VStr "✅ Available"]> response in
         let response := <["connection_status" := VStr "Connected"]> response in
         try_except
           (let! names := list_collection_names in
            let response :=
              <["collections" := VList (map VStr (take 10 names))]> response in
            let response :=
              <["database" := VStr "✅ Connected & Working"]> response in
            ret response)
           (fun e =>
              ret (<["database" :=
                       VStr ("⚠️ Connected but Error: " +:+ short_error e)]> response))
     | None =>
         ret (<["database" := VStr "⚠️ Available but not initialized"]> response)
     end)
    (fun e =>
       ret (<["database" := VStr ("❌ Error: " +:+ short_error e)]> response)).

End Diagnostics.

(** The three store steps [list_blogs] performs one after the other. *)
Definition count_posts : M nat := count_documents "blogpost" [].

Definition seed_if_empty (count : nat) : M unit :=
  if Nat.eqb count 0 then
    let! posts := seed_posts in
    match posts with
    | [] => ret tt
    | _ :: _ => let! _ := insert_many "blogpost" posts in ret tt
    end
  else ret tt.

Definition published_posts (py_str : Value -> string) (limit : Z) : M BlogsResponse :=
  let! docs := get_documents "blogpost" [("published", VBool true)] limit in
  let docs := map (stringify_id py_str) docs in
  ret (mkBlogsResponse docs).

(** [schemas.User]: the dict of a model built from the given fields, the
    optional ones falling back to the declared defaults. *)
Definition User (name email password_hash : string)
    (avatar_url plan : option string) (is_active : option bool) : Doc :=
  <["name" := VStr name]>
  (<["email" := VStr email]>
  (<["password_hash" := VStr password_hash]>
  (<["avatar_url" := opt_str avatar_url]>
  (<["plan" := VStr (default "free" plan)]>
  (<["is_active" := VBool (default true is_active)]> ∅))))).

(** The string emails of the stored users, in insertion order. *)
Definition user_emails (d : Database) : list string :=
  omap (fun sd => match sd_fields sd !! "email" with
                  | Some (VStr e) => Some e
                  | _ => None
                  end) (coll d "user").

Definition emails_unique (w : World) : Prop :=
  match w_db w with
  | Some d => List.NoDup (user_emails d)
  | None => True
  end.

(** A request to one of the two authentication routes, and the world a
    sequence of them leaves behind. *)
Inductive AuthRequest : Type :=
| ReqRegister (payload : RegisterRequest)
| ReqLogin (payload : LoginRequest).

Definition serve (py_str : Value -> string) (pwd_context : CryptContext)
    (b64url_json : Doc -> string)
    (jws_signature : string -> string -> string -> string)
    (env_JWT_SECRET : option string) (req : AuthRequest) (w : World) : World :=
  match req with
  | ReqRegister payload =>
      snd (register py_str pwd_context b64url_json jws_signature env_JWT_SECRET payload w)
  | ReqLogin payload =>
      snd (login py_str pwd_context b64url_json jws_signature env_JWT_SECRET payload w)
  end.

Definition demo_exn_str (e : Exn) : string :=
  match e with
  | HTTPException _ detail => detail
  | PyError cls => cls
  end.

Definition demo_test_database := test_database demo_exn_str (Some "") None.

(** A digest that turns the empty secret down. *)
Definition picky_raw (config secret : string) : Outcome N :=
  match secret with
  | EmptyString => Raise (PyError "ValueError")
  | String _ _ => Ok (N.of_nat (String.length secret))
  end.

Definition picky_context : CryptContext := bcrypt_context picky_raw.

Definition eve : RegisterRequest := mkRegisterRequest "Eve" "eve@example.com" "".

Definition alice_again : RegisterRequest :=
  mkRegisterRequest "Alice Again" "alice@example.com" "another password".

Definition alice_login_response : AuthResponse :=
  match fst (demo_login alice_login alice_world) with
  | Ok r => r
  | Raise _ => mkAuthResponse "" ∅
  end.

(** A store whose only blog post is a draft. *)
Definition draft_db : Database :=
  mkDatabase true
    (<["blogpost" := [mkStored 1%N (<["title" := VStr "Draft"]>
                                     (<["published" := VBool false]> ∅))]]> ∅).

Definition unreachable_probe : Doc :=
  match fst (demo_test_database (demo_world (Some unreachable_db))) with
  | Ok response => response
  | Raise _ => ∅
  end.

Definition auth_session : list AuthRequest :=
  [ReqRegister alice; ReqLogin alice_login; ReqRegister alice_again; ReqRegister bob].

(** * Properties *)

Section Properties.

Variable py_str : Value -> string.
Variable pwd_context : CryptContext.
Variable b64url_json : Doc -> string.
Variable jws_signature : string -> string -> string -> string.
Variable env_JWT_SECRET : option string.

Local Abbreviation do_register :=
  (register py_str pwd_context b64url_json jws_signature env_JWT_SECRET).
Local Abbreviation do_login :=
  (login py_str pwd_context b64url_json jws_signature env_JWT_SECRET).
Local Abbreviation do_list_blogs := (list_blogs py_str).
Local Abbreviation do_contact := (contact py_str).
Local Abbreviation issue :=
  (create_access_token b64url_json jws_signature env_JWT_SECRET).
Local Abbreviation encode := (jwt_encode b64url_json jws_signature).
Local Abbreviation secret := (JWT_SECRET env_JWT_SECRET).

(** *** Running the primitives *)

Lemma bind_ok {A B} (m : M A) (k : A -> M B) w a w' :
  m w = (Ok a, w') -> bind m k w = k a w'.
Proof. intros H. unfold bind. now rewrite H. Qed.

Lemma bind_raise {A B} (m : M A) (k : A -> M B) w e w' :
  m w = (Raise e, w') -> bind m k w = (Raise e, w').
Proof. intros H. unfold bind. now rewrite H. Qed.

Lemma with_db_run {A} (k : Database -> M A) w d :
  w_db w = Some d -> reachable d = true -> with_db k w = k d w.
Proof. intros Hd Hr. unfold with_db. now rewrite Hd, Hr. Qed.

Lemma with_db_down {A} (k : Database -> M A) w d :
  w_db w = Some d -> reachable d = false ->
  with_db k w = (Raise (PyError "ServerSelectionTimeoutError"), w).
Proof. intros Hd Hr. unfold with_db. now rewrite Hd, Hr. Qed.

Lemma issue_run data w :
  issue data None w =
  if representable (now w + 604800000000) then
    (Ok (encode (<["exp" := VDatetime (now w + 7 * 24 * 60 * 60 * 1000000)]> data)
           secret "HS256"), tick w)
  else (Raise (PyError "OverflowError"), tick w).
Proof.
  unfold create_access_token, bind, utcnow, lift, ret, datetime_add.
  change (delta_or_default None) with 604800000000%Z.
  now destruct (representable _).
Qed.

Lemma materialise_nonempty sd : materialise sd <> ∅.
Proof. unfold materialise. apply insert_non_empty. Qed.

Lemma materialise_id sd : materialise sd !! "_id" = Some (VObjectId (sd_id sd)).
Proof. unfold materialise. apply lookup_insert_eq. Qed.

Lemma py_get_id sd : py_get (materialise sd) "_id" = VObjectId (sd_id sd).
Proof. unfold py_get. now rewrite materialise_id. Qed.

Lemma materialise_field sd k :
  k <> "_id" -> materialise sd !! k = sd_fields sd !! k.
Proof. intros Hk. unfold materialise. now rewrite lookup_insert_ne. Qed.

Lemma find_elem name f d doc :
  In doc (find name f d) ->
  exists sd, In sd (coll d name) /\ doc = materialise sd /\ doc_matches f doc = true.
Proof.
  unfold find. intros Hin. apply filter_In in Hin as [Hin Hm].
  apply in_map_iff in Hin as (sd & <- & Hsd). eauto.
Qed.

Lemma find_head name f d doc :
  head (find name f d) = Some doc ->
  exists sd, In sd (coll d name) /\ doc = materialise sd /\ doc_matches f doc = true.
Proof.
  intros H. apply (find_elem name f d).
  destruct (find name f d) as [|x l]; [discriminate|].
  injection H as ->. now left.
Qed.

Lemma find_head_truthy name f d :
  truthy (head (find name f d)) = negb (Nat.eqb (length (find name f d)) 0).
Proof.
  destruct (find name f d) as [|doc l] eqn:E; [reflexivity|]. simpl.
  destruct (find_head name f d doc) as (sd & _ & -> & _); [now rewrite E|].
  rewrite bool_decide_eq_false_2; [reflexivity | apply materialise_nonempty].
Qed.

(** *** [register] and [login], path by path *)

Lemma register_uninitialised payload w :
  w_db w = None ->
  do_register payload w = (Raise (HTTPException 500 "Database not available"), w).
Proof. intros Hd. unfold register, bind, get_db. now rewrite Hd. Qed.

Lemma register_available payload w d :
  w_db w = Some d -> reachable d = true ->
  do_register payload w =
  if truthy (head (find "user" [("email", VStr (reg_email payload))] d)) then
    (Raise (HTTPException 400 "Email already registered"), w)
  else
    match ctx_hash pwd_context (entropy w) (reg_password payload) with
    | Raise e => (Raise e, draw w)
    | Ok h =>
        let oid := entropy (draw w) in
        let user_doc := new_user_doc payload h (now w) (now (tick w)) in
        let w' :=
          mkWorld (Some (set_coll d "user"
                           (coll d "user" ++ [mkStored oid (to_bson <$> user_doc)])))
            (w_clock w) (3 + w_ticks w) (w_rand w) (2 + w_draws w) in
        if representable (now (tick (tick w)) + 604800000000) then
          (Ok (mkAuthResponse
                 (encode (issued_claims (VStr (py_str (VObjectId oid)))
                            (VStr (reg_email payload)) (now (tick (tick w))))
                    secret "HS256")
                 (<["_id" := VStr (py_str (VObjectId oid))]>
                    (delete "password_hash" (<["_id" := VObjectId oid]> user_doc)))),
           w')
        else (Raise (PyError "OverflowError"), w')
    end.
Proof.
  intros Hd Hr.
  unfold register, bind, get_db, find_one, hash_password, insert_one, with_db,
    create_access_token, lift, ret, raise, utcnow, urandom, datetime_add, bind.
  cbn. rewrite !Hd. cbn. rewrite Hr. cbn.
  destruct (truthy _); [reflexivity|].
  destruct (ctx_hash _ _ _); [|reflexivity].
  cbn. rewrite Hd. cbn. rewrite Hr. cbn.
  change (delta_or_default None) with 604800000000%Z.
  now destruct (representable _).
Qed.

Lemma register_unreachable payload w d :
  w_db w = Some d -> reachable d = false ->
  do_register payload w = (Raise (PyError "ServerSelectionTimeoutError"), w).
Proof.
  intros Hd Hr. unfold register, bind, get_db, find_one, with_db.
  rewrite !Hd. cbn. now rewrite Hr.
Qed.

Lemma register_ok_inv payload w r w' :
  do_register payload w = (Ok r, w') ->
  exists d h,
    w_db w = Some d /\ reachable d = true /\
    find "user" [("email", VStr (reg_email payload))] d = [] /\
    ctx_hash pwd_context (entropy w) (reg_password payload) = Ok h /\
    let oid := entropy (draw w) in
    let user_doc := new_user_doc payload h (now w) (now (tick w)) in
    r = mkAuthResponse
          (encode (issued_claims (VStr (py_str (VObjectId oid)))
                     (VStr (reg_email payload)) (now (tick (tick w))))
             secret "HS256")
          (<["_id" := VStr (py_str (VObjectId oid))]>
             (delete "password_hash" (<["_id" := VObjectId oid]> user_doc))) /\
    w' = mkWorld (Some (set_coll d "user"
                          (coll d "user" ++ [mkStored oid (to_bson <$> user_doc)])))
           (w_clock w) (3 + w_ticks w) (w_rand w) (2 + w_draws w).
Proof.
  intros H.
  destruct (w_db w) as [d|] eqn:Hd;
    [|rewrite register_uninitialised in H by assumption; discriminate].
  destruct (reachable d) eqn:Hr;
    [|rewrite (register_unreachable _ _ d) in H by assumption; discriminate].
  rewrite (register_available _ _ d) in H by assumption.
  rewrite find_head_truthy in H.
  destruct (find "user" _ d) as [|x l] eqn:Hf; [|discriminate]. cbn in H.
  destruct (ctx_hash _ _ _) as [h|e] eqn:Hh; [|discriminate].
  cbn zeta in H. destruct (representable _); [|discriminate].
  injection H as <- <-. exists d, h. repeat split; assumption.
Qed.

Lemma login_uninitialised payload w :
  w_db w = None ->
  do_login payload w = (Raise (HTTPException 500 "Database not available"), w).
Proof. intros Hd. unfold login, bind, get_db. now rewrite Hd. Qed.

Lemma login_unreachable payload w d :
  w_db w = Some d -> reachable d = false ->
  do_login payload w = (Raise (PyError "ServerSelectionTimeoutError"), w).
Proof.
  intros Hd Hr. unfold login, bind, get_db, find_one, with_db.
  rewrite !Hd. cbn. now rewrite Hr.
Qed.

Lemma login_available payload w d :
  w_db w = Some d -> reachable d = true ->
  do_login payload w =
  match head (find "user" [("email", VStr (login_email payload))] d) with
  | None => (Raise (HTTPException 400 "Invalid credentials"), w)
  | Some user =>
      match ctx_verify pwd_context (login_password payload)
              (py_get_or user "password_hash" (VStr "")) with
      | Raise e => (Raise e, w)
      | Ok false => (Raise (HTTPException 400 "Invalid credentials"), w)
      | Ok true =>
          if representable (now w + 604800000000) then
            (Ok (mkAuthResponse
                   (encode (issued_claims (VStr (py_str (py_get user "_id")))
                              (py_get user "email") (now w))
                      secret "HS256")
                   (delete "password_hash"
                      (<["_id" := VStr (py_str (py_get user "_id"))]> user))),
             tick w)
          else (Raise (PyError "OverflowError"), tick w)
      end
  end.
Proof.
  intros Hd Hr.
  unfold login, bind, get_db, find_one, verify_password, with_db,
    create_access_token, lift, ret, raise, utcnow, datetime_add, bind.
  cbn. rewrite !Hd. cbn. rewrite Hr. cbn.
  pose proof (find_head_truthy "user" [("email", VStr (login_email payload))] d) as Ht.
  destruct (head (find "user" _ d)) as [user|] eqn:Hu; [|reflexivity].
  destruct (find_head _ _ _ _ Hu) as (sd & _ & Hsd & _).
  assert (Htrue : truthy (Some user) = true).
  { rewrite Ht. destruct (find "user" _ d); [discriminate|reflexivity]. }
  rewrite Htrue. cbn.
  destruct (ctx_verify _ _ _) as [[|]|e]; try reflexivity.
  cbn. change (delta_or_default None) with 604800000000%Z.
  destruct (representable _); [|reflexivity].
  cbn. subst user. unfold py_get. rewrite materialise_id. reflexivity.
Qed.

(** *** [list_blogs] and [contact], path by path *)

Lemma find_all name d : find name [] d = map materialise (coll d name).
Proof.
  unfold find. induction (map materialise (coll d name)) as [|x l IH];
    [reflexivity|]. cbn. now rewrite IH.
Qed.

Lemma find_same_coll name f d d' :
  coll d' name = coll d name -> find name f d' = find name f d.
Proof. unfold find. now intros ->. Qed.

Lemma coll_set_coll d name c : coll (set_coll d name c) name = c.
Proof. unfold coll, set_coll. cbn. now rewrite lookup_insert_eq. Qed.

Lemma coll_set_coll_ne d name name' c :
  name <> name' -> coll (set_coll d name c) name' = coll d name'.
Proof. intros Hne. unfold coll, set_coll. cbn. now rewrite lookup_insert_ne. Qed.

Lemma list_blogs_uninitialised limit w :
  w_db w = None ->
  do_list_blogs limit w = (Raise (HTTPException 500 "Database not available"), w).
Proof. intros Hd. unfold list_blogs, bind, get_db. now rewrite Hd. Qed.

Lemma list_blogs_unreachable limit w d :
  w_db w = Some d -> reachable d = false ->
  do_list_blogs limit w = (Raise (PyError "ServerSelectionTimeoutError"), w).
Proof.
  intros Hd Hr. unfold list_blogs, bind, get_db, count_documents, with_db.
  rewrite !Hd. cbn. now rewrite Hr.
Qed.

Lemma list_blogs_available limit w d :
  w_db w = Some d -> reachable d = true ->
  do_list_blogs limit w =
  if Nat.eqb (length (coll d "blogpost")) 0 then
    let d' := set_coll d "blogpost" (coll d "blogpost" ++ seed_records w) in
    (Ok (mkBlogsResponse
           (map (stringify_id py_str)
              (take (Z.to_nat limit) (find "blogpost" [("published", VBool true)] d')))),
     mkWorld (Some d') (w_clock w) (9 + w_ticks w) (w_rand w) (3 + w_draws w))
  else
    (Ok (mkBlogsResponse
           (map (stringify_id py_str)
              (take (Z.to_nat limit) (find "blogpost" [("published", VBool true)] d)))),
     w).
Proof.
  intros Hd Hr.
  unfold list_blogs, bind, get_db, count_documents, with_db.
  rewrite !Hd. cbn. rewrite Hr. cbn.
  rewrite find_all, length_map.
  destruct (Nat.eqb (length (coll d "blogpost")) 0).
  - unfold insert_many, with_db, get_documents, with_gateway, bind, ret. cbn.
    rewrite Hd. cbn. rewrite Hr. cbn. rewrite Hr. reflexivity.
  - unfold get_documents, with_gateway, ret. cbn. rewrite Hd, Hr. reflexivity.
Qed.

Lemma contact_uninitialised payload w :
  w_db w = None ->
  do_contact payload w = (Raise (HTTPException 500 "Database not available"), w).
Proof. intros Hd. unfold contact, bind, get_db. now rewrite Hd. Qed.

Lemma contact_ok_inv payload w r w' :
  do_contact payload w = (Ok r, w') ->
  r = mkContactResponse "ok" (py_str (VObjectId (entropy w))).
Proof.
  unfold contact, bind, get_db, create_document, with_gateway, insert_one, with_db,
    utcnow, urandom, ret, bind.
  destruct (w_db w) as [d|] eqn:Hd; cbn; [|discriminate].
  rewrite ?Hd. destruct (reachable d) eqn:Hr; cbn; [|discriminate].
  rewrite ?Hd. cbn. rewrite ?Hr. cbn. now intros [= <- _].
Qed.

(** *** Registration *)

(** C2: when a stored user already has the email, [register] fails with
    400 "Email already registered" and leaves the world, hence the user
    collection, exactly as it was. *)
Theorem register_duplicate_email payload w d sd :
  w_db w = Some d -> reachable d = true ->
  In sd (coll d "user") ->
  sd_fields sd !! "email" = Some (VStr (reg_email payload)) ->
  do_register payload w =
    (Raise (HTTPException 400 "Email already registered"), w).
Proof.
  intros Hd Hr Hin Hemail.
  rewrite (register_available _ _ d) by assumption.
  rewrite find_head_truthy.
  assert (Hfound : In (materialise sd)
                     (find "user" [("email", VStr (reg_email payload))] d)).
  { unfold find. apply filter_In. split.
    - apply in_map. exact Hin.
    - unfold doc_matches. cbn.
      rewrite materialise_field by discriminate. rewrite Hemail.
      unfold value_matches. cbn. now rewrite String.eqb_refl. }
  destruct (find "user" _ d); [contradiction|reflexivity].
Qed.

(** C10: the record a successful [register] stores carries the server's
    defaults for [plan], [is_active] and [avatar_url]; the request type
    has no field that could reach them. *)
Theorem register_server_defaults payload w r w' :
  do_register payload w = (Ok r, w') ->
  exists d d' sd,
    w_db w = Some d /\ w_db w' = Some d' /\
    coll d' "user" = (coll d "user" ++ [sd])%list /\
    sd_fields sd !! "plan" = Some (VStr "free") /\
    sd_fields sd !! "is_active" = Some (VBool true) /\
    sd_fields sd !! "avatar_url" = Some VNone /\
    sd_fields sd !! "name" = Some (VStr (reg_name payload)) /\
    sd_fields sd !! "email" = Some (VStr (reg_email payload)).
Proof.
  intros H. apply register_ok_inv in H as (d & h & Hd & _ & _ & _ & _ & ->).
  eexists d, _, _. split; [exact Hd|]. split; [reflexivity|].
  split; [apply coll_set_coll|].
  cbn. unfold new_user_doc. repeat split; by simplify_map_eq.
Qed.

(** *** Login *)

(** C3: a login whose email matches no stored user and a login whose
    password the hash check turns down fail with one and the same
    error, 400 "Invalid credentials". *)
Theorem login_failures_identical p1 w1 d1 p2 w2 d2 user :
  w_db w1 = Some d1 -> reachable d1 = true ->
  find "user" [("email", VStr (login_email p1))] d1 = [] ->
  w_db w2 = Some d2 -> reachable d2 = true ->
  head (find "user" [("email", VStr (login_email p2))] d2) = Some user ->
  ctx_verify pwd_context (login_password p2)
    (py_get_or user "password_hash" (VStr "")) = Ok false ->
  fst (do_login p1 w1) = Raise (HTTPException 400 "Invalid credentials") /\
  fst (do_login p2 w2) = fst (do_login p1 w1) /\
  client_view (fst (do_login p2 w2)) = client_view (fst (do_login p1 w1)).
Proof.
  intros Hd1 Hr1 Hnone Hd2 Hr2 Hsome Hbad.
  rewrite (login_available p1 w1 d1), (login_available p2 w2 d2) by assumption.
  rewrite Hnone, Hsome, Hbad. cbn. auto.
Qed.

(** *** Store availability *)

(** C5, as the code has it: with [db] not initialised every handler
    fails at once with 500 "Database not available" and touches nothing;
    a handle that is initialised but unreachable gets no such guard, the
    driver's exception leaves [register], [login] and [list_blogs]
    uncaught, again before anything is written. *)
Theorem store_unavailable w :
  let unavailable {A} : Outcome A * World :=
    (Raise (HTTPException 500 "Database not available"), w) in
  let crash {A} : Outcome A * World :=
    (Raise (PyError "ServerSelectionTimeoutError"), w) in
  (w_db w = None ->
     (forall p, register py_str pwd_context b64url_json jws_signature
                  env_JWT_SECRET p w = unavailable) /\
     (forall p, login py_str pwd_context b64url_json jws_signature
                  env_JWT_SECRET p w = unavailable) /\
     (forall limit, list_blogs py_str limit w = unavailable) /\
     (forall p, contact py_str p w = unavailable)) /\
  (forall d, w_db w = Some d -> reachable d = false ->
     (forall p, register py_str pwd_context b64url_json jws_signature
                  env_JWT_SECRET p w = crash) /\
     (forall p, login py_str pwd_context b64url_json jws_signature
                  env_JWT_SECRET p w = crash) /\
     (forall limit, list_blogs py_str limit w = crash) /\
     (forall p, is_http_exception
                  (fst (register py_str pwd_context b64url_json jws_signature
                          env_JWT_SECRET p w)) = false)).
Proof.
  split.
  - intros Hd. repeat split; intros.
    + now apply register_uninitialised.
    + now apply login_uninitialised.
    + now apply list_blogs_uninitialised.
    + now apply contact_uninitialised.
  - intros d Hd Hr. repeat split; intros.
    + now apply (register_unreachable _ _ d).
    + now apply (login_unreachable _ _ d).
    + now apply (list_blogs_unreachable _ _ d).
    + now rewrite (register_unreachable _ _ d).
Qed.

(** *** Tokens *)

Lemma issued_claims_dom sub email t :
  dom (issued_claims sub email t) = ({["sub"; "email"; "exp"]} : gset string).
Proof. unfold issued_claims. rewrite !dom_insert_L, dom_empty_L. set_solver. Qed.

Lemma append_dot_nonempty (a b : string) : a +:+ "." +:+ b <> "".
Proof. destruct a; discriminate. Qed.

Lemma encode_nonempty claims key alg : encode claims key alg <> "".
Proof. unfold jwt_encode. apply append_dot_nonempty. Qed.

Lemma login_ok_inv payload w r w' :
  do_login payload w = (Ok r, w') ->
  exists d sd,
    w_db w = Some d /\ reachable d = true /\ In sd (coll d "user") /\
    head (find "user" [("email", VStr (login_email payload))] d) = Some (materialise sd) /\
    ctx_verify pwd_context (login_password payload)
      (py_get_or (materialise sd) "password_hash" (VStr "")) = Ok true /\
    r = mkAuthResponse
          (encode (issued_claims (VStr (py_str (VObjectId (sd_id sd))))
                     (py_get (materialise sd) "email") (now w))
             secret "HS256")
          (delete "password_hash"
             (<["_id" := VStr (py_str (VObjectId (sd_id sd)))]> (materialise sd))) /\
    w' = tick w.
Proof.
  intros H.
  destruct (w_db w) as [d|] eqn:Hd;
    [|rewrite login_uninitialised in H by assumption; discriminate].
  destruct (reachable d) eqn:Hr;
    [|rewrite (login_unreachable _ _ d) in H by assumption; discriminate].
  rewrite (login_available _ _ d) in H by assumption.
  destruct (head (find "user" _ d)) as [user|] eqn:Hu; [|discriminate].
  destruct (find_head _ _ _ _ Hu) as (sd & Hin & -> & _).
  destruct (ctx_verify _ _ _) as [[|]|e] eqn:Hv; try discriminate.
  destruct (representable _); [|discriminate].
  injection H as <- <-. exists d, sd.
  rewrite !py_get_id. auto 10.
Qed.

(** C7: the token [register] and [login] return is the compact JWS
    encoding, signed under HS256 with the configured secret, of a claims
    mapping with exactly the keys [sub], [email] and [exp]: [sub] is the
    stringified identifier of the user record (for [register] the record
    just stored, for [login] the record the lookup found, the one whose
    [_id] the response carries), [exp] the clock reading at issuance plus
    seven days. *)
Theorem token_claims :
  (forall payload w r w',
     do_register payload w = (Ok r, w') ->
     exists d d' sd issued_at,
       w_db w = Some d /\ w_db w' = Some d' /\
       coll d' "user" = (coll d "user" ++ [sd])%list /\
       issued_at = now (tick (tick w)) /\
       let claims := issued_claims (VStr (py_str (VObjectId (sd_id sd))))
                       (VStr (reg_email payload)) issued_at in
       resp_token r = encode claims secret "HS256" /\
       dom claims = ({["sub"; "email"; "exp"]} : gset string) /\
       claims !! "exp" =
         Some (VDatetime (issued_at + timedelta_minutes JWT_EXPIRES_MIN))) /\
  (forall payload w r w',
     do_login payload w = (Ok r, w') ->
     exists d sd issued_at,
       w_db w = Some d /\ In sd (coll d "user") /\
       head (find "user" [("email", VStr (login_email payload))] d)
         = Some (materialise sd) /\
       resp_user r !! "_id" = Some (VStr (py_str (VObjectId (sd_id sd)))) /\
       issued_at = now w /\
       let claims := issued_claims (VStr (py_str (VObjectId (sd_id sd))))
                       (py_get (materialise sd) "email") issued_at in
       resp_token r = encode claims secret "HS256" /\
       dom claims = ({["sub"; "email"; "exp"]} : gset string) /\
       claims !! "exp" =
         Some (VDatetime (issued_at + timedelta_minutes JWT_EXPIRES_MIN))) /\
  (forall claims,
     let signing_input :=
       b64url_json (<["alg" := VStr "HS256"]> {["typ" := VStr "JWT"]})
         +:+ "." +:+ b64url_json (time_claims claims) in
     encode claims secret "HS256" =
       signing_input +:+ "." +:+ jws_signature "HS256" secret signing_input) /\
  timedelta_minutes JWT_EXPIRES_MIN = (7 * 24 * 60 * 60 * 1000000)%Z.
Proof.
  repeat split.
  - intros payload w r w' H.
    apply register_ok_inv in H as (d & h & Hd & _ & _ & _ & -> & ->).
    eexists d, _, _, _. split; [exact Hd|]. split; [reflexivity|].
    split; [apply coll_set_coll|]. split; [reflexivity|]. cbn.
    split; [reflexivity|]. split; [apply issued_claims_dom|].
    unfold issued_claims. by rewrite lookup_insert_eq.
  - intros payload w r w' H.
    apply login_ok_inv in H as (d & sd & Hd & _ & Hin & Hhead & _ & -> & _).
    exists d, sd, (now w). repeat split; try assumption.
    cbn [resp_user]. rewrite lookup_delete_ne by discriminate.
    apply lookup_insert_eq.
Qed.

(** *** Register, then log in *)

Lemma find_set_coll name f d c :
  find name f (set_coll d name c) = List.filter (doc_matches f) (map materialise c).
Proof. unfold find. now rewrite coll_set_coll. Qed.

Lemma new_user_matches payload h t1 t2 oid :
  doc_matches [("email", VStr (reg_email payload))]
    (materialise (mkStored oid (to_bson <$> new_user_doc payload h t1 t2))) = true.
Proof.
  unfold doc_matches, materialise, new_user_doc. cbn.
  simplify_map_eq. unfold value_matches. cbn. now rewrite String.eqb_refl.
Qed.

Lemma new_user_field payload h t1 t2 k v :
  new_user_doc payload h t1 t2 !! k = Some (VStr v) ->
  (to_bson <$> new_user_doc payload h t1 t2) !! k = Some (VStr v).
Proof. intros H. now rewrite lookup_fmap, H. Qed.

(** C1, as the code has it: with the store available, an email no stored
    user matches, a hasher that accepts the password and verifies its own
    hashes, and the two clock readings at which the tokens are issued at
    least seven days short of the last [datetime], [register] succeeds, a [login] with the same email and password
    right after it succeeds, both tokens are non-empty and neither user
    payload has a [password_hash]. *)
Theorem register_then_login payload w d :
  w_db w = Some d -> reachable d = true ->
  find "user" [("email", VStr (reg_email payload))] d = [] ->
  (forall salt, exists h,
      ctx_hash pwd_context salt (reg_password payload) = Ok h) ->
  (forall salt h,
      ctx_hash pwd_context salt (reg_password payload) = Ok h ->
      ctx_verify pwd_context (reg_password payload) (VStr h) = Ok true) ->
  representable (now (tick (tick w)) + 604800000000) = true ->
  representable (now (tick (tick (tick w))) + 604800000000) = true ->
  exists r1 w1 r2 w2,
    do_register payload w = (Ok r1, w1) /\
    do_login (mkLoginRequest (reg_email payload) (reg_password payload)) w1
      = (Ok r2, w2) /\
    resp_token r1 <> "" /\ resp_token r2 <> "" /\
    resp_user r1 !! "password_hash" = None /\
    resp_user r2 !! "password_hash" = None.
Proof.
  intros Hd Hr Hfresh Hhash Hverify Hclock1 Hclock2.
  destruct (Hhash (entropy w)) as [h Hh].
  rewrite (register_available _ _ d) by assumption.
  rewrite Hfresh, Hh. cbn zeta.
  rewrite Hclock1.
  set (oid := entropy (draw w)).
  set (user_doc := new_user_doc payload h (now w) (now (tick w))).
  set (d1 := set_coll d "user" (coll d "user" ++ [mkStored oid (to_bson <$> user_doc)])).
  set (w1 := mkWorld (Some d1) _ _ _ _).
  assert (Hfind : find "user" [("email", VStr (reg_email payload))] d1
                  = [materialise (mkStored oid (to_bson <$> user_doc))]).
  { unfold d1. rewrite find_set_coll, List.map_app, List.filter_app.
    fold (find "user" [("email", VStr (reg_email payload))] d).
    rewrite Hfresh. cbn [map List.filter app].
    unfold user_doc. now rewrite new_user_matches. }
  assert (Hstored : py_get_or (materialise (mkStored oid (to_bson <$> user_doc)))
                      "password_hash" (VStr "") = VStr h).
  { unfold py_get_or. rewrite materialise_field by discriminate.
    cbn [sd_fields]. unfold user_doc.
    rewrite (new_user_field _ _ _ _ _ h); [reflexivity|].
    unfold new_user_doc. by simplify_map_eq. }
  eexists. exists w1. do 2 eexists. split; [reflexivity|].
  rewrite (login_available _ w1 d1) by (reflexivity || exact Hr).
  cbn [login_email login_password]. rewrite Hfind. cbn [head].
  rewrite Hstored, (Hverify _ _ Hh).
  replace (representable (now w1 + 604800000000)) with true
    by (symmetry; exact Hclock2).
  split; [reflexivity|]. cbn.
  split; [apply encode_nonempty|]. split; [apply encode_nonempty|].
  split.
  - rewrite lookup_insert_ne by discriminate. apply lookup_delete_eq.
  - apply lookup_delete_eq.
Qed.

(** *** Identifiers *)

Lemma stringify_plain d : plain_id (stringify_id py_str d) = true.
Proof. unfold plain_id, stringify_id. now rewrite lookup_insert_eq. Qed.

Lemma list_blogs_ok_inv limit w r w' :
  do_list_blogs limit w = (Ok r, w') ->
  exists docs, resp_items r = map (stringify_id py_str) docs.
Proof.
  intros H.
  destruct (w_db w) as [d|] eqn:Hd;
    [|rewrite list_blogs_uninitialised in H by assumption; discriminate].
  destruct (reachable d) eqn:Hr;
    [|rewrite (list_blogs_unreachable _ _ d) in H by assumption; discriminate].
  rewrite (list_blogs_available _ _ d) in H by assumption.
  destruct (Nat.eqb _ _); injection H as <- _; eexists; reflexivity.
Qed.

(** C9: every identifier a handler returns is a plain string: the
    [_id] of the user payload and the [sub] claim of [register] and
    [login], the [_id] of every item of [list_blogs], and the [id] of
    [contact], which is the string form of the generated ObjectId. *)
Theorem identifiers_are_strings :
  (forall payload w r w',
     do_register payload w = (Ok r, w') ->
     plain_id (resp_user r) = true /\
     exists sub email issued_at,
       resp_token r = encode (issued_claims (VStr sub) email issued_at) secret "HS256") /\
  (forall payload w r w',
     do_login payload w = (Ok r, w') ->
     plain_id (resp_user r) = true /\
     exists sub email issued_at,
       resp_token r = encode (issued_claims (VStr sub) email issued_at) secret "HS256") /\
  (forall limit w r w',
     do_list_blogs limit w = (Ok r, w') ->
     forallb plain_id (resp_items r) = true) /\
  (forall payload w r w',
     do_contact payload w = (Ok r, w') ->
     exists oid, resp_id r = py_str (VObjectId oid)).
Proof.
  repeat split.
  - apply register_ok_inv in H as (d & h & _ & _ & _ & _ & -> & _). cbn.
    unfold plain_id. now rewrite lookup_insert_eq.
  - apply register_ok_inv in H as (d & h & _ & _ & _ & _ & -> & _). cbn. eauto.
  - apply login_ok_inv in H as (d & sd & _ & _ & _ & _ & _ & -> & _). cbn.
    unfold plain_id. rewrite lookup_delete_ne by discriminate.
    now rewrite lookup_insert_eq.
  - apply login_ok_inv in H as (d & sd & _ & _ & _ & _ & _ & -> & _). cbn. eauto.
  - intros limit w r w' H. apply list_blogs_ok_inv in H as [docs ->].
    apply forallb_forall. intros x Hx. apply in_map_iff in Hx as (y & <- & _).
    apply stringify_plain.
  - intros payload w r w' H. apply contact_ok_inv in H as ->. cbn. eauto.
Qed.

(** *** Blog listing *)

Lemma seed_records_length w : length (seed_records w) = 3.
Proof. reflexivity. Qed.

Lemma seed_records_titles w :
  map (fun sd => sd_fields sd !! "title") (seed_records w)
  = map (fun t => Some (VStr t)) seed_titles.
Proof. vm_compute. reflexivity. Qed.

Lemma seed_records_published w :
  Forall (fun sd => sd_fields sd !! "published" = Some (VBool true)) (seed_records w).
Proof. repeat constructor. Qed.

Lemma seed_records_listed w :
  List.filter (doc_matches [("published", VBool true)])
    (map materialise (seed_records w))
  = map materialise (seed_records w).
Proof. vm_compute. reflexivity. Qed.

Lemma take_all {A} (l : list A) (limit : Z) :
  (Z.of_nat (length l) <= limit)%Z -> take (Z.to_nat limit) l = l.
Proof. intros H. apply take_ge. lia. Qed.

(** C6, as the code has it: on an empty [blogpost] collection, with a
    limit of at least 3 (the default is 6), [list_blogs] inserts exactly
    the three demo
    records, all published, and returns 3 items; any later call on a
    store holding that collection returns the same 3 items and changes
    nothing; every item is published and the length is within the limit. *)
Theorem list_blogs_seeds_once w d limit :
  w_db w = Some d -> reachable d = true ->
  coll d "blogpost" = [] -> (3 <= limit)%Z ->
  exists items w1 d1,
    do_list_blogs limit w = (Ok (mkBlogsResponse items), w1) /\
    w_db w1 = Some d1 /\ reachable d1 = true /\
    coll d1 "blogpost" = seed_records w /\
    length (seed_records w) = 3 /\
    map (fun sd => sd_fields sd !! "title") (seed_records w)
      = map (fun t => Some (VStr t)) seed_titles /\
    Forall (fun sd => sd_fields sd !! "published" = Some (VBool true))
      (seed_records w) /\
    length items = 3 /\
    Forall (fun item => item !! "published" = Some (VBool true)) items /\
    (Z.of_nat (length items) <= limit)%Z /\
    forall w2 d2 limit2,
      w_db w2 = Some d2 -> reachable d2 = true ->
      coll d2 "blogpost" = coll d1 "blogpost" -> (3 <= limit2)%Z ->
      do_list_blogs limit2 w2 = (Ok (mkBlogsResponse items), w2).
Proof.
  intros Hd Hr Hempty Hlimit.
  set (d1 := set_coll d "blogpost" (seed_records w)).
  set (items := map (stringify_id py_str) (map materialise (seed_records w))).
  assert (Hfind : forall d2, coll d2 "blogpost" = seed_records w ->
            find "blogpost" [("published", VBool true)] d2
            = map materialise (seed_records w)).
  { intros d2 H2. unfold find. rewrite H2. apply seed_records_listed. }
  assert (Hitems : length items = 3) by reflexivity.
  exists items, (mkWorld (Some d1) (w_clock w) (9 + w_ticks w) (w_rand w) (3 + w_draws w)), d1.
  split.
  { rewrite (list_blogs_available _ _ d) by assumption.
    rewrite Hempty. cbn [length Nat.eqb app]. cbn zeta. fold d1.
    rewrite (Hfind d1) by apply coll_set_coll.
    rewrite take_all by (rewrite length_map, seed_records_length; exact Hlimit).
    reflexivity. }
  split; [reflexivity|]. split; [exact Hr|].
  split; [apply coll_set_coll|].
  split; [apply seed_records_length|].
  split; [apply seed_records_titles|].
  split; [apply seed_records_published|].
  split; [exact Hitems|].
  split.
  { unfold items. rewrite List.Forall_forall. intros item Hin.
    apply in_map_iff in Hin as (doc & <- & Hin).
    apply in_map_iff in Hin as (sd & <- & Hin).
    unfold stringify_id. rewrite lookup_insert_ne by discriminate.
    rewrite materialise_field by discriminate.
    pose proof (seed_records_published w) as Hpub.
    rewrite List.Forall_forall in Hpub. now apply Hpub. }
  split; [rewrite Hitems; exact Hlimit|].
  intros w2 d2 limit2 Hd2 Hr2 Hsame Hlimit2.
  unfold d1 in Hsame. rewrite coll_set_coll in Hsame.
  rewrite (list_blogs_available _ _ d2) by assumption.
  rewrite Hsame, seed_records_length. cbn [Nat.eqb].
  rewrite (Hfind d2) by exact Hsame.
  rewrite take_all by (rewrite length_map, seed_records_length; exact Hlimit2).
  reflexivity.
Qed.

End Properties.

(** * The bcrypt context *)

Section BcryptProperties.

Variable raw : string -> string -> Outcome N.

Local Abbreviation ctx := (bcrypt_context raw).

Lemma b64char_in_alphabet n : in_alphabet (b64char n) = true.
Proof.
  unfold b64char.
  assert (Hlt : N.to_nat (n mod 64) < 64).
  { pose proof (N.mod_upper_bound n 64). lia. }
  generalize dependent (N.to_nat (n mod 64)). intros i Hlt.
  do 64 (destruct i as [|i]; [reflexivity|]). lia.
Qed.

Lemma b64digits_in_alphabet k n : str_all in_alphabet (b64digits k n) = true.
Proof.
  revert n. induction k as [|k IH]; intros n; [reflexivity|].
  unfold str_all in *. cbn [b64digits list_ascii_of_string forallb].
  now rewrite b64char_in_alphabet, IH.
Qed.

Lemma bcrypt_hash_shape salt secret h :
  bcrypt_hash raw salt secret = Ok h ->
  exists d, bcrypt_digest raw ("$2b$12$" +:+ b64digits 22 salt) secret = Ok d /\
            h = ("$2b$12$" +:+ b64digits 22 salt) +:+ b64digits 31 d.
Proof.
  unfold bcrypt_hash. intros H.
  destruct (bcrypt_digest _ _ secret) as [d|e]; [|discriminate].
  injection H as <-. now exists d.
Qed.

Lemma bcrypt_parse_hashed salt d :
  bcrypt_parse "$2b$" (("$2b$12$" +:+ b64digits 22 salt) +:+ b64digits 31 d)
  = Some ("$2b$12$" +:+ b64digits 22 salt, b64digits 31 d).
Proof.
  unfold bcrypt_parse. cbv zeta.
  set (h := ("$2b$12$" +:+ b64digits 22 salt) +:+ b64digits 31 d).
  change (String.length h) with 60.
  change (str_take 2 (str_drop (String.length "$2b$") h)) with "12".
  change (str_take 1 (str_drop (String.length "$2b$" + 2) h)) with "$".
  change (str_take 22 (str_drop (String.length "$2b$" + 3) h))
    with (b64digits 22 salt).
  change (str_drop (String.length "$2b$" + 25) h) with (b64digits 31 d).
  change (str_take (String.length "$2b$" + 25) h)
    with ("$2b$12$" +:+ b64digits 22 salt).
  now rewrite !b64digits_in_alphabet.
Qed.

(** Verifying against a hash this context produced recomputes the
    checksum under the hash's own configuration and compares. *)
Lemma bcrypt_verify_hashed salt secret d2 :
  bcrypt_verify raw secret
    (VStr (("$2b$12$" +:+ b64digits 22 salt) +:+ b64digits 31 d2))
  = match bcrypt_digest raw ("$2b$12$" +:+ b64digits 22 salt) secret with
    | Ok d => Ok (String.eqb (b64digits 31 d) (b64digits 31 d2))
    | Raise e => Raise e
    end.
Proof.
  unfold bcrypt_verify.
  change (bcrypt_ident_of _) with (Some "$2b$").
  cbv beta iota. now rewrite bcrypt_parse_hashed.
Qed.

Lemma bcrypt_round_trip salt secret h :
  bcrypt_hash raw salt secret = Ok h ->
  bcrypt_verify raw secret (VStr h) = Ok true.
Proof.
  intros H. apply bcrypt_hash_shape in H as (d & Hd & ->).
  rewrite bcrypt_verify_hashed, Hd. now rewrite String.eqb_refl.
Qed.



Lemma digest_needs_clean_secret config secret d :
  bcrypt_digest raw config secret = Ok d -> has_nul secret = false.
Proof.
  unfold bcrypt_digest, check_secret.
  destruct (N.ltb _ _); [discriminate|].
  now destruct (has_nul secret).
Qed.


(** C4, as the code has it: [verify_password] hands the context's
    answer through and leaves the world alone.  A hash string no scheme
    identifies raises [UnknownHashError], and one with a bcrypt
    identifier that has not the length of a bcrypt hash raises as well; a
    boolean comes back only for a string with a bcrypt identifier and of
    the full length, and only for a password without a NUL character. *)
Theorem verify_password_outcome password h w :
  snd (verify_password ctx password (VStr h) w) = w /\
  (bcrypt_ident_of h = None ->
     fst (verify_password ctx password (VStr h) w)
     = Raise (PyError "UnknownHashError")) /\
  (forall ident,
     bcrypt_ident_of h = Some ident ->
     String.length h <> String.length ident + 56 ->
     is_ok (fst (verify_password ctx password (VStr h) w)) = false) /\
  (forall b,
     fst (verify_password ctx password (VStr h) w) = Ok b ->
     exists ident,
       bcrypt_ident_of h = Some ident /\
       String.length h = String.length ident + 56 /\
       has_nul password = false).
Proof.
  unfold verify_password, lift. cbn [fst snd ctx_verify bcrypt_context bcrypt_verify].
  split; [reflexivity|]. split; [now intros ->|]. split.
  - intros ident -> Hlen. unfold bcrypt_parse.
    destruct (Nat.eqb_spec (String.length h) (String.length ident + 25 + 31));
      [lia|reflexivity].
  - intros b. destruct (bcrypt_ident_of h) as [ident|]; [|discriminate].
    unfold bcrypt_parse.
    destruct (Nat.eqb_spec (String.length h) (String.length ident + 25 + 31))
      as [Hlen|]; [|discriminate].
    cbn [andb].
    destruct (str_all is_digit _ && _ && _ && _)%bool; [|discriminate].
    destruct (bcrypt_digest raw _ password) as [d|e] eqn:Hd; [|discriminate].
    intros _. exists ident. split; [reflexivity|]. split; [lia|].
    now apply digest_needs_clean_secret in Hd.
Qed.

End BcryptProperties.

(** * The statements on concrete runs *)

Lemma register_then_login_witness :
  exists r1 w1 r2 w2,
    demo_register alice (demo_world (Some bare_db)) = (Ok r1, w1) /\
    demo_login (mkLoginRequest (reg_email alice) (reg_password alice)) w1 = (Ok r2, w2) /\
    resp_token r1 <> "" /\ resp_token r2 <> "" /\
    resp_user r1 !! "password_hash" = None /\
    resp_user r2 !! "password_hash" = None.
Proof.
  apply (register_then_login demo_str demo_context demo_b64url_json demo_signature
           None alice (demo_world (Some bare_db)) bare_db).
  - reflexivity.
  - reflexivity.
  - vm_compute. reflexivity.
  - intros salt. eexists. reflexivity.
  - intros salt h. apply bcrypt_round_trip.
  - reflexivity.
  - reflexivity.
Defined.

(** C1: a registration whose password holds a NUL character is a valid
    payload with a fresh email, yet [register] raises in the hasher and
    stores nothing. *)
Lemma register_rejects_nul_password :
  find "user" [("email", VStr (reg_email mallory))] bare_db = [] /\
  fst (demo_register mallory (demo_world (Some bare_db)))
    = Raise (PyError "NullPasswordError") /\
  is_ok (fst (demo_register mallory (demo_world (Some bare_db)))) = false /\
  w_db (snd (demo_register mallory (demo_world (Some bare_db)))) = Some bare_db.
Proof. vm_compute. repeat split; reflexivity. Qed.

Lemma register_duplicate_email_witness :
  demo_register bob (demo_world (Some bare_db))
  = (Raise (HTTPException 400 "Email already registered"), demo_world (Some bare_db)).
Proof.
  apply (register_duplicate_email demo_str demo_context demo_b64url_json
           demo_signature None bob (demo_world (Some bare_db)) bare_db bare_user).
  - reflexivity.
  - reflexivity.
  - vm_compute. left. reflexivity.
  - vm_compute. reflexivity.
Defined.

Lemma login_failures_identical_witness :
  fst (demo_login nobody alice_world) = Raise (HTTPException 400 "Invalid credentials") /\
  fst (demo_login alice_wrong alice_world) = fst (demo_login nobody alice_world) /\
  client_view (fst (demo_login alice_wrong alice_world))
  = client_view (fst (demo_login nobody alice_world)).
Proof.
  apply (login_failures_identical demo_str demo_context demo_b64url_json
           demo_signature None nobody alice_world alice_db
           alice_wrong alice_world alice_db alice_record).
  - vm_compute. reflexivity.
  - vm_compute. reflexivity.
  - vm_compute. reflexivity.
  - vm_compute. reflexivity.
  - vm_compute. reflexivity.
  - vm_compute. reflexivity.
  - vm_compute. reflexivity.
Defined.

Lemma store_unavailable_witness :
  demo_contact hello (demo_world None)
    = (Raise (HTTPException 500 "Database not available"), demo_world None) /\
  demo_list_blogs 6 (demo_world (Some unreachable_db))
    = (Raise (PyError "ServerSelectionTimeoutError"), demo_world (Some unreachable_db)).
Proof.
  split.
  - apply (proj1 (store_unavailable demo_str demo_context demo_b64url_json
                    demo_signature None (demo_world None)));
      reflexivity.
  - apply (proj2 (store_unavailable demo_str demo_context demo_b64url_json
                    demo_signature None (demo_world (Some unreachable_db)))
             unreachable_db);
      reflexivity.
Defined.

(** C5: with an initialised but unreachable store [register] does not
    end in an [HTTPException]; the driver's error escapes, and what the
    client receives is the same bare 500 as for the unrelated failure of a
    login against a record without a usable hash. *)
Lemma unreachable_store_crashes :
  is_http_exception (fst (demo_register alice (demo_world (Some unreachable_db)))) = false /\
  fst (demo_register alice (demo_world (Some unreachable_db)))
    = Raise (PyError "ServerSelectionTimeoutError") /\
  fst (demo_login bob_login (demo_world (Some bare_db)))
    = Raise (PyError "UnknownHashError") /\
  client_view (fst (demo_register alice (demo_world (Some unreachable_db))))
    = client_view (fst (demo_login bob_login (demo_world (Some bare_db)))).
Proof. vm_compute. repeat split; reflexivity. Qed.

Lemma list_blogs_seeds_once_witness :
  exists items w1 d1,
    demo_list_blogs 6 (demo_world (Some bare_db)) = (Ok (mkBlogsResponse items), w1) /\
    w_db w1 = Some d1 /\ reachable d1 = true /\
    coll d1 "blogpost" = seed_records (demo_world (Some bare_db)) /\
    length (seed_records (demo_world (Some bare_db))) = 3 /\
    map (fun sd => sd_fields sd !! "title") (seed_records (demo_world (Some bare_db)))
      = map (fun t => Some (VStr t)) seed_titles /\
    Forall (fun sd => sd_fields sd !! "published" = Some (VBool true))
      (seed_records (demo_world (Some bare_db))) /\
    length items = 3 /\
    Forall (fun item => item !! "published" = Some (VBool true)) items /\
    (Z.of_nat (length items) <= 6)%Z /\
    forall w2 d2 limit2,
      w_db w2 = Some d2 -> reachable d2 = true ->
      coll d2 "blogpost" = coll d1 "blogpost" -> (3 <= limit2)%Z ->
      demo_list_blogs limit2 w2 = (Ok (mkBlogsResponse items), w2).
Proof.
  apply (list_blogs_seeds_once demo_str (demo_world (Some bare_db)) bare_db 6).
  - reflexivity.
  - reflexivity.
  - vm_compute. reflexivity.
  - lia.
Defined.

(** C6: with a limit of 2 the first call on an empty collection returns
    two items, not three. *)
Lemma list_blogs_small_limit :
  match fst (demo_list_blogs 2 (demo_world (Some empty_db))) with
  | Ok r => length (resp_items r)
  | Raise _ => 0
  end = 2.
Proof. vm_compute. reflexivity. Qed.

Lemma token_claims_witness :
  exists d d' sd issued_at,
    w_db (demo_world (Some bare_db)) = Some d /\ w_db alice_world = Some d' /\
    coll d' "user" = (coll d "user" ++ [sd])%list /\
    issued_at = now (tick (tick (demo_world (Some bare_db)))) /\
    let claims := issued_claims (VStr (demo_str (VObjectId (sd_id sd))))
                    (VStr (reg_email alice)) issued_at in
    resp_token alice_response
      = jwt_encode demo_b64url_json demo_signature claims (JWT_SECRET None) "HS256" /\
    dom claims = ({["sub"; "email"; "exp"]} : gset string) /\
    claims !! "exp" = Some (VDatetime (issued_at + timedelta_minutes JWT_EXPIRES_MIN)).
Proof.
  apply (proj1 (token_claims demo_str demo_context demo_b64url_json
                  demo_signature None)
           alice (demo_world (Some bare_db)) alice_response alice_world).
  vm_compute. reflexivity.
Defined.

Lemma identifiers_are_strings_witness :
  plain_id (resp_user alice_response) = true /\
  exists sub email issued_at,
    resp_token alice_response
    = jwt_encode demo_b64url_json demo_signature
        (issued_claims (VStr sub) email issued_at) (JWT_SECRET None) "HS256".
Proof.
  apply (proj1 (identifiers_are_strings demo_str demo_context demo_b64url_json
                  demo_signature None)
           alice (demo_world (Some bare_db)) alice_response alice_world).
  vm_compute. reflexivity.
Defined.

Lemma register_server_defaults_witness :
  exists d d' sd,
    w_db (demo_world (Some bare_db)) = Some d /\ w_db alice_world = Some d' /\
    coll d' "user" = (coll d "user" ++ [sd])%list /\
    sd_fields sd !! "plan" = Some (VStr "free") /\
    sd_fields sd !! "is_active" = Some (VBool true) /\
    sd_fields sd !! "avatar_url" = Some VNone /\
    sd_fields sd !! "name" = Some (VStr (reg_name alice)) /\
    sd_fields sd !! "email" = Some (VStr (reg_email alice)).
Proof.
  apply (register_server_defaults demo_str demo_context demo_b64url_json
           demo_signature None alice (demo_world (Some bare_db))
           alice_response alice_world).
  vm_compute. reflexivity.
Defined.

Lemma verify_password_outcome_witness :
  fst (verify_password demo_context "correct horse" (VStr "") (demo_world None))
    = Raise (PyError "UnknownHashError") /\
  is_ok (fst (verify_password demo_context "correct horse" (VStr "$2b$12$short")
                (demo_world None))) = false /\
  exists ident,
    bcrypt_ident_of demo_hash = Some ident /\
    String.length demo_hash = String.length ident + 56 /\
    has_nul "correct horse" = false.
Proof.
  split; [|split].
  - apply (proj1 (proj2 (verify_password_outcome demo_raw "correct horse" ""
                           (demo_world None)))).
    reflexivity.
  - apply (proj1 (proj2 (proj2 (verify_password_outcome demo_raw "correct horse"
                                  "$2b$12$short" (demo_world None))))
             "$2b$").
    + reflexivity.
    + cbn. lia.
  - apply (proj2 (proj2 (proj2 (verify_password_outcome demo_raw "correct horse"
                                  demo_hash (demo_world None))))
             true).
    vm_compute. reflexivity.
Defined.

(** C4: handed the empty string as hash, [verify_password] raises
    instead of returning false, and a [login] that reaches it with a record
    lacking [password_hash] ends in that exception, not in a 400. *)
Lemma verify_of_empty_hash_raises :
  fst (verify_password demo_context "correct horse" (VStr "") (demo_world None))
    = Raise (PyError "UnknownHashError") /\
  is_ok (fst (verify_password demo_context "correct horse" (VStr "") (demo_world None)))
    = false /\
  fst (demo_login bob_login (demo_world (Some bare_db)))
    = Raise (PyError "UnknownHashError").
Proof. vm_compute. repeat split; reflexivity. Qed.



(** * Further properties of the handlers *)

Section HandlerProperties.

Variable py_str : Value -> string.
Variable pwd_context : CryptContext.
Variable b64url_json : Doc -> string.
Variable jws_signature : string -> string -> string -> string.
Variable env_JWT_SECRET : option string.

Local Abbreviation handlers_of f :=
  (f py_str pwd_context b64url_json jws_signature env_JWT_SECRET).

(** X1: [create_access_token] reads the clock once and touches nothing
    else.  The expiry is the reading plus the explicit delta when that is
    not zero, and plus seven days when the delta is missing or zero.  When
    that sum is a [datetime] the token signs the caller's claims with
    [exp] set (or replaced) to it, every other claim unchanged; when it
    lies outside the range of [datetime] the call raises
    [OverflowError]. *)
Theorem create_access_token_expiry data expires_delta delta w :
  (expires_delta = Some delta /\ delta <> 0%Z) \/
  ((expires_delta = None \/ expires_delta = Some 0%Z) /\ delta = 604800000000%Z) ->
  snd (create_access_token b64url_json jws_signature env_JWT_SECRET
         data expires_delta w) = tick w /\
  (representable (now w + delta) = true ->
     exists claims,
       fst (create_access_token b64url_json jws_signature env_JWT_SECRET
              data expires_delta w)
       = Ok (jwt_encode b64url_json jws_signature claims
               (JWT_SECRET env_JWT_SECRET) "HS256") /\
       claims !! "exp" = Some (VDatetime (now w + delta)) /\
       (forall k, k <> "exp" -> claims !! k = data !! k)) /\
  (representable (now w + delta) = false ->
     fst (create_access_token b64url_json jws_signature env_JWT_SECRET
            data expires_delta w)
     = Raise (PyError "OverflowError")).
Proof.
  intros Hdelta.
  assert (Hd : delta_or_default expires_delta = delta).
  { destruct Hdelta as [[-> Hne] | [[-> | ->] ->]]; try reflexivity.
    cbn. destruct (Z.eqb_spec delta 0); [contradiction|reflexivity]. }
  unfold create_access_token, bind, utcnow, lift, ret, datetime_add.
  rewrite Hd. destruct (representable (now w + delta)); cbn [fst snd].
  - split; [reflexivity|]. split; [|discriminate].
    intros _. eexists. split; [reflexivity|].
    split; [apply lookup_insert_eq|].
    intros k Hk. now rewrite lookup_insert_ne.
  - split; [reflexivity|]. split; [discriminate|reflexivity].
Qed.

(** X2: when hashing the password raises, [register] raises the same
    exception and nothing has been stored; only the random draw for the
    salt has been consumed. *)
Theorem register_hash_failure payload w d e :
  w_db w = Some d -> reachable d = true ->
  find "user" [("email", VStr (reg_email payload))] d = [] ->
  ctx_hash pwd_context (entropy w) (reg_password payload) = Raise e ->
  handlers_of register payload w = (Raise e, draw w) /\ w_db (draw w) = Some d.
Proof.
  intros Hd Hr Hfresh Hhash.
  rewrite (register_available _ _ _ _ _ _ _ d) by assumption.
  now rewrite Hfresh, Hhash.
Qed.

Lemma new_user_doc_fields payload h t1 t2 oid k :
  k <> "_id" -> k <> "password_hash" ->
  (<["_id" := VStr (py_str (VObjectId oid))]>
     (delete "password_hash" (<["_id" := VObjectId oid]> (new_user_doc payload h t1 t2))))
    !! k
  = new_user_doc payload h t1 t2 !! k.
Proof.
  intros H1 H2.
  now rewrite lookup_insert_ne, lookup_delete_ne, lookup_insert_ne by congruence.
Qed.

Lemma new_user_doc_bson payload h t1 t2 k :
  k <> "created_at" -> k <> "updated_at" ->
  (to_bson <$> new_user_doc payload h t1 t2) !! k = new_user_doc payload h t1 t2 !! k.
Proof.
  intros H1 H2. rewrite lookup_fmap. unfold new_user_doc.
  repeat (rewrite lookup_insert; case_decide; [subst; try reflexivity; congruence|]).
  now rewrite lookup_empty.
Qed.

(** X3: a successful [register] appends exactly one record to the user
    collection and leaves every other collection alone; the record holds
    the hasher's output under [password_hash], and the returned user
    payload agrees with the record on every key other than [_id] (the
    record's identifier as a string), [password_hash] (absent) and the
    two timestamps: the payload carries the clock readings as they were
    taken, the record the same readings cut to the millisecond. *)
Theorem register_response_mirrors_record payload w r w' :
  handlers_of register payload w = (Ok r, w') ->
  exists d d' sd h,
    w_db w = Some d /\ w_db w' = Some d' /\
    coll d' "user" = (coll d "user" ++ [sd])%list /\
    (forall name, name <> "user" -> coll d' name = coll d name) /\
    ctx_hash pwd_context (entropy w) (reg_password payload) = Ok h /\
    sd_fields sd !! "password_hash" = Some (VStr h) /\
    resp_user r !! "_id" = Some (VStr (py_str (VObjectId (sd_id sd)))) /\
    resp_user r !! "password_hash" = None /\
    (forall k, k <> "_id" -> k <> "password_hash" ->
       k <> "created_at" -> k <> "updated_at" ->
       resp_user r !! k = sd_fields sd !! k) /\
    resp_user r !! "created_at" = Some (VDatetime (now w)) /\
    sd_fields sd !! "created_at" = Some (VDatetime (ms_floor (now w))) /\
    resp_user r !! "updated_at" = Some (VDatetime (now (tick w))) /\
    sd_fields sd !! "updated_at" = Some (VDatetime (ms_floor (now (tick w)))).
Proof.
  intros H. apply register_ok_inv in H as (d & h & Hd & _ & _ & Hh & -> & ->).
  eexists d, _, _, h. split; [exact Hd|]. split; [reflexivity|].
  split; [apply coll_set_coll|].
  split; [intros name Hne; apply coll_set_coll_ne; congruence|].
  split; [exact Hh|]. cbn [sd_fields sd_id resp_user].
  split; [rewrite new_user_doc_bson by discriminate;
          unfold new_user_doc; by simplify_map_eq|].
  split; [apply lookup_insert_eq|].
  split; [rewrite lookup_insert_ne by discriminate; apply lookup_delete_eq|].
  split.
  { intros k H1 H2 H3 H4.
    rewrite new_user_doc_bson by assumption. now apply new_user_doc_fields. }
  rewrite !new_user_doc_fields by discriminate.
  rewrite !lookup_fmap. unfold new_user_doc.
  repeat split; by simplify_map_eq.
Qed.

Lemma register_conflict payload w d sd :
  w_db w = Some d -> reachable d = true ->
  In sd (coll d "user") ->
  sd_fields sd !! "email" = Some (VStr (reg_email payload)) ->
  handlers_of register payload w = (Raise (HTTPException 400 "Email already registered"), w).
Proof.
  intros Hd Hr Hin Hemail.
  rewrite (register_available _ _ _ _ _ _ _ d) by assumption.
  rewrite find_head_truthy.
  assert (Hfound : In (materialise sd)
                     (find "user" [("email", VStr (reg_email payload))] d)).
  { unfold find. apply filter_In. split; [now apply in_map|].
    unfold doc_matches. cbn. rewrite materialise_field by discriminate.
    rewrite Hemail. unfold value_matches. cbn. now rewrite String.eqb_refl. }
  destruct (find "user" _ d); [contradiction|reflexivity].
Qed.

(** X4: once a [register] has succeeded, every later [register] with the
    same email on the resulting store, whatever its name and password,
    fails with 400 "Email already registered" and stores nothing. *)
Theorem register_twice_conflict p1 p2 w r w1 :
  handlers_of register p1 w = (Ok r, w1) ->
  reg_email p2 = reg_email p1 ->
  handlers_of register p2 w1 = (Raise (HTTPException 400 "Email already registered"), w1).
Proof.
  intros H Hsame.
  apply register_ok_inv in H as (d & h & _ & Hr & _ & _ & _ & ->).
  eapply register_conflict.
  - reflexivity.
  - exact Hr.
  - rewrite coll_set_coll. apply in_or_app. right. now left.
  - cbn [sd_fields]. rewrite new_user_doc_bson by discriminate.
    rewrite Hsame. unfold new_user_doc. by simplify_map_eq.
Qed.

Lemma login_outcomes payload w :
  exists o,
    handlers_of login payload w = (o, w) \/
    handlers_of login payload w = (o, tick w).
Proof.
  destruct (w_db w) as [d|] eqn:Hd;
    [|rewrite login_uninitialised by assumption; eauto].
  destruct (reachable d) eqn:Hr;
    [|rewrite (login_unreachable _ _ _ _ _ _ _ d) by assumption; eauto].
  rewrite (login_available _ _ _ _ _ _ _ d) by assumption.
  destruct (head _); [|eauto].
  destruct (ctx_verify _ _ _) as [[|]|e]; eauto.
  destruct (representable _); eauto.
Qed.

(** X6: [login] never writes: whatever the payload and the outcome, the
    store and the random source are as they were before the call, and
    the clock has been read at most once. *)
Theorem login_never_writes payload w :
  w_db (snd (handlers_of login payload w)) = w_db w /\
  w_draws (snd (handlers_of login payload w)) = w_draws w /\
  w_ticks (snd (handlers_of login payload w)) <= S (w_ticks w).
Proof.
  destruct (w_db w) as [d|] eqn:Hd;
    [|rewrite login_uninitialised by assumption; cbn; rewrite Hd; auto].
  destruct (reachable d) eqn:Hr;
    [|rewrite (login_unreachable _ _ _ _ _ _ _ d) by assumption; cbn; rewrite Hd; auto].
  rewrite (login_available _ _ _ _ _ _ _ d) by assumption.
  destruct (head _); [|cbn; rewrite Hd; auto].
  destruct (ctx_verify _ _ _) as [[|]|e]; [destruct (representable _)| |];
    cbn; rewrite Hd; auto.
Qed.

Lemma filter_head_split {A B} (f : B -> bool) (g : A -> B) (l : list A) (y : B) :
  head (List.filter f (map g l)) = Some y ->
  exists before x after,
    l = (before ++ x :: after)%list /\ g x = y /\ f y = true /\
    (forall x', In x' before -> f (g x') = false).
Proof.
  induction l as [|a l IH]; cbn; [discriminate|].
  destruct (f (g a)) eqn:Hfa.
  - intros [= <-]. exists [], a, l. repeat split; [exact Hfa|intros _ []].
  - intros H. destruct (IH H) as (before & x & after & -> & Hx & Hy & Hbefore).
    exists (a :: before), x, after. repeat split; try assumption.
    intros x' [<- | Hin]; [exact Hfa | now apply Hbefore].
Qed.

(** X7: a successful [login] answers for the first stored record whose
    email matches, also when later records match as well: the payload's
    [_id] is that record's identifier as a string, [password_hash] is
    gone, and every other key is the record's. *)
Theorem login_response_mirrors_record payload w r w' :
  handlers_of login payload w = (Ok r, w') ->
  exists d before sd after,
    w_db w = Some d /\
    coll d "user" = (before ++ sd :: after)%list /\
    (forall sd', In sd' before ->
       doc_matches [("email", VStr (login_email payload))] (materialise sd') = false) /\
    doc_matches [("email", VStr (login_email payload))] (materialise sd) = true /\
    resp_user r !! "_id" = Some (VStr (py_str (VObjectId (sd_id sd)))) /\
    resp_user r !! "password_hash" = None /\
    (forall k, k <> "_id" -> k <> "password_hash" ->
       resp_user r !! k = sd_fields sd !! k).
Proof.
  intros H.
  apply login_ok_inv in H as (d & sd0 & Hd & _ & _ & Hhead & _ & -> & _).
  unfold find in Hhead.
  apply filter_head_split in Hhead
    as (before & sd & after & Hsplit & Hsd & Hmatch & Hbefore).
  exists d, before, sd, after.
  assert (Hid : sd_id sd0 = sd_id sd).
  { apply (f_equal (fun m => m !! "_id")) in Hsd.
    rewrite !materialise_id in Hsd. congruence. }
  rewrite <- Hsd in Hmatch. cbn [resp_user]. rewrite Hid, <- Hsd.
  repeat split; try assumption.
  - rewrite lookup_delete_ne by discriminate. apply lookup_insert_eq.
  - apply lookup_delete_eq.
  - intros k H1 H2.
    rewrite lookup_delete_ne, lookup_insert_ne by congruence.
    now apply materialise_field.
Qed.

(** *** Unique emails *)

Lemma user_emails_app d sd :
  user_emails (set_coll d "user" (coll d "user" ++ [sd]))
  = (user_emails d ++
     match sd_fields sd !! "email" with
     | Some (VStr e) => [e]
     | _ => []
     end)%list.
Proof.
  unfold user_emails. rewrite coll_set_coll, omap_app. f_equal.
  cbn. destruct (sd_fields sd !! "email") as [[]|]; reflexivity.
Qed.

Lemma email_stored_is_found d e :
  In e (user_emails d) -> find "user" [("email", VStr e)] d <> [].
Proof.
  unfold user_emails. intros Hin.
  apply list_elem_of_In, list_elem_of_omap in Hin as (sd & Hsd & Hemail).
  apply list_elem_of_In in Hsd.
  destruct (sd_fields sd !! "email") as [[]|] eqn:Hf; try discriminate.
  injection Hemail as ->.
  assert (Hfound : In (materialise sd) (find "user" [("email", VStr e)] d)).
  { unfold find. apply filter_In. split; [now apply in_map|].
    unfold doc_matches. cbn. rewrite materialise_field by discriminate.
    rewrite Hf. unfold value_matches. cbn. now rewrite String.eqb_refl. }
  intros Hnil. now rewrite Hnil in Hfound.
Qed.

Lemma register_keeps_emails_unique payload w :
  emails_unique w -> emails_unique (snd (handlers_of register payload w)).
Proof.
  unfold emails_unique. intros Hu.
  destruct (w_db w) as [d|] eqn:Hd;
    [|rewrite register_uninitialised by assumption; cbn; now rewrite Hd].
  destruct (reachable d) eqn:Hr;
    [|rewrite (register_unreachable _ _ _ _ _ _ _ d) by assumption; cbn; now rewrite Hd].
  rewrite (register_available _ _ _ _ _ _ _ d) by assumption.
  rewrite find_head_truthy.
  destruct (find "user" _ d) as [|x l] eqn:Hfind; cbn [length Nat.eqb negb];
    [|cbn; now rewrite Hd].
  destruct (ctx_hash _ _ _) as [h|e]; [|cbn; now rewrite Hd].
  cbn zeta.
  assert (Hgoal : List.NoDup
            (user_emails
               (set_coll d "user"
                  (coll d "user" ++
                   [mkStored (entropy (draw w))
                      (to_bson <$> new_user_doc payload h (now w) (now (tick w)))])))).
  2: { destruct (representable _); exact Hgoal. }
  rewrite user_emails_app. cbn [sd_fields].
  replace ((to_bson <$> new_user_doc payload h (now w) (now (tick w))) !! "email")
    with (Some (VStr (reg_email payload)))
    by (rewrite new_user_doc_bson by discriminate;
        unfold new_user_doc; by simplify_map_eq).
  apply List.NoDup_app; [exact Hu | repeat constructor; intros [] |].
  intros e He [<- | []].
  now apply email_stored_is_found in He.
Qed.

(** X5: the authentication routes keep stored emails unique: if no two
    stored users share a string email, then after any sequence of
    [register] and [login] requests, whatever their outcomes, still no two
    do. *)
Theorem auth_requests_keep_emails_unique reqs w :
  emails_unique w ->
  emails_unique
    (fold_left (fun w req =>
                  serve py_str pwd_context b64url_json jws_signature env_JWT_SECRET req w)
       reqs w).
Proof.
  revert w. induction reqs as [|req reqs IH]; intros w Hu; [exact Hu|].
  cbn [fold_left]. apply IH. destruct req as [payload|payload]; cbn [serve].
  - now apply register_keeps_emails_unique.
  - unfold emails_unique in *.
    destruct (login_outcomes payload w) as [o [-> | ->]]; exact Hu.
Qed.

(** *** The user schema *)

(** X13: the record a successful [register] stores is the dict of
    [schemas.User] built from the payload's name and email and the
    computed hash, every optional field at its declared default, with the
    two timestamps added, each the clock reading cut to the millisecond. *)
Theorem stored_user_fits_schema payload w r w' :
  handlers_of register payload w = (Ok r, w') ->
  exists d d' sd h,
    w_db w = Some d /\ w_db w' = Some d' /\
    coll d' "user" = (coll d "user" ++ [sd])%list /\
    ctx_hash pwd_context (entropy w) (reg_password payload) = Ok h /\
    sd_fields sd
    = <["created_at" := VDatetime (ms_floor (now w))]>
        (<["updated_at" := VDatetime (ms_floor (now (tick w)))]>
           (User (reg_name payload) (reg_email payload) h None None None)).
Proof.
  intros H. apply register_ok_inv in H as (d & h & Hd & _ & _ & Hh & _ & ->).
  eexists d, _, _, h. split; [exact Hd|]. split; [reflexivity|].
  split; [apply coll_set_coll|]. split; [exact Hh|].
  cbn [sd_fields]. unfold new_user_doc, User. cbn [opt_str default].
  rewrite !fmap_insert, fmap_empty. cbn [to_bson].
  apply map_eq. intros k.
  repeat (rewrite lookup_insert; case_decide; [subst; by simplify_map_eq|]).
  by simplify_map_eq.
Qed.

(** *** Error statuses *)

(** X14: as long as the hashing context itself raises no [HTTPException],
    the only HTTP errors [register] can end in are 500 "Database not
    available" and 400 "Email already registered", and the only ones
    [login] can end in are 500 "Database not available" and 400 "Invalid
    credentials". *)
Theorem auth_http_errors :
  (forall salt p status detail,
      ctx_hash pwd_context salt p <> Raise (HTTPException status detail)) ->
  (forall p h status detail,
      ctx_verify pwd_context p h <> Raise (HTTPException status detail)) ->
  (forall payload w status detail,
      fst (handlers_of register payload w) = Raise (HTTPException status detail) ->
      (status, detail) = (500%Z, "Database not available") \/
      (status, detail) = (400%Z, "Email already registered")) /\
  (forall payload w status detail,
      fst (handlers_of login payload w) = Raise (HTTPException status detail) ->
      (status, detail) = (500%Z, "Database not available") \/
      (status, detail) = (400%Z, "Invalid credentials")).
Proof.
  intros Hhash Hverify. split; intros payload w status detail.
  - destruct (w_db w) as [d|] eqn:Hd;
      [|rewrite register_uninitialised by assumption; cbn; intros [= <- <-]; auto].
    destruct (reachable d) eqn:Hr;
      [|rewrite (register_unreachable _ _ _ _ _ _ _ d) by assumption; discriminate].
    rewrite (register_available _ _ _ _ _ _ _ d) by assumption.
    destruct (truthy _); [cbn; intros [= <- <-]; auto|].
    destruct (ctx_hash _ _ _) as [h|e] eqn:Hh;
      [cbn zeta; destruct (representable _); discriminate|].
    cbn. intros [= ->]. now apply Hhash in Hh.
  - destruct (w_db w) as [d|] eqn:Hd;
      [|rewrite login_uninitialised by assumption; cbn; intros [= <- <-]; auto].
    destruct (reachable d) eqn:Hr;
      [|rewrite (login_unreachable _ _ _ _ _ _ _ d) by assumption; discriminate].
    rewrite (login_available _ _ _ _ _ _ _ d) by assumption.
    destruct (head _); [|cbn; intros [= <- <-]; auto].
    destruct (ctx_verify _ _ _) as [[|]|e] eqn:Hv; cbn.
    + destruct (representable _); discriminate.
    + intros [= <- <-]. auto.
    + intros [= ->]. now apply Hverify in Hv.
Qed.

(** *** Seeding *)

Lemma filter_map_none {A B} (f : B -> bool) (g : A -> B) (l : list A) :
  (forall x, In x l -> f (g x) = false) -> List.filter f (map g l) = [].
Proof.
  induction l as [|a l IH]; intros Hnone; [reflexivity|].
  cbn. rewrite (Hnone a) by now left.
  apply IH. intros x Hin. apply Hnone. now right.
Qed.

(** X8: on a reachable store whose [blogpost] collection is not empty,
    [list_blogs] seeds nothing and changes nothing, whatever the limit;
    this also holds when none of the stored posts is published, in which
    case the listing is empty. *)
Theorem list_blogs_without_seeding limit w d :
  w_db w = Some d -> reachable d = true ->
  coll d "blogpost" <> [] ->
  exists r,
    list_blogs py_str limit w = (Ok r, w) /\
    length (resp_items r) <= length (coll d "blogpost") /\
    ((forall sd, In sd (coll d "blogpost") ->
        doc_matches [("published", VBool true)] (materialise sd) = false) ->
     resp_items r = []).
Proof.
  intros Hd Hr Hne.
  rewrite (list_blogs_available _ _ _ d) by assumption.
  destruct (Nat.eqb_spec (length (coll d "blogpost")) 0) as [Hzero|_].
  { destruct (coll d "blogpost"); [contradiction|discriminate]. }
  eexists. split; [reflexivity|]. cbn [resp_items]. split.
  - rewrite length_map, length_take. unfold find.
    pose proof (List.filter_length_le
                  (doc_matches [("published", VBool true)])
                  (map materialise (coll d "blogpost"))) as Hle.
    rewrite length_map in Hle. lia.
  - intros Hnone. unfold find.
    rewrite filter_map_none by exact Hnone. now rewrite take_nil.
Qed.

Lemma seed_if_empty_run w d :
  w_db w = Some d -> reachable d = true ->
  seed_if_empty 0 w
  = (Ok tt,
     mkWorld (Some (set_coll d "blogpost" (coll d "blogpost" ++ seed_records w)))
       (w_clock w) (9 + w_ticks w) (w_rand w) (3 + w_draws w)).
Proof.
  intros Hd Hr. unfold seed_if_empty, insert_many, with_db, bind, ret. cbn.
  rewrite Hd. cbn. now rewrite Hr.
Qed.

(** X9: [list_blogs] is the count, the conditional seeding and the query
    run one after the other, and the count and the seeding are separate
    store steps: when two first requests both count an empty collection
    before either seeds, each inserts its own three posts, the collection
    ends up with six records, and a listing with a limit of at least 6
    returns six items. *)
Theorem list_blogs_seeding_race w d limit :
  w_db w = Some d -> reachable d = true ->
  coll d "blogpost" = [] -> (6 <= limit)%Z ->
  (forall limit',
     list_blogs py_str limit'
     = (let! db := get_db in
        match db with
        | None => db_unavailable
        | Some _ =>
            let! count := count_posts in
            (seed_if_empty count >> published_posts py_str limit')
        end)) /\
  exists w1 w2 d2 r,
    count_posts w = (Ok 0, w) /\
    seed_if_empty 0 w = (Ok tt, w1) /\
    seed_if_empty 0 w1 = (Ok tt, w2) /\
    w_db w2 = Some d2 /\
    coll d2 "blogpost" = (seed_records w ++ seed_records w1)%list /\
    length (coll d2 "blogpost") = 6 /\
    published_posts py_str limit w2 = (Ok r, w2) /\
    length (resp_items r) = 6.
Proof.
  intros Hd Hr Hempty Hlimit. split; [reflexivity|].
  set (d1 := set_coll d "blogpost" (coll d "blogpost" ++ seed_records w)).
  set (w1 := mkWorld (Some d1) (w_clock w) (9 + w_ticks w) (w_rand w) (3 + w_draws w)).
  set (d2 := set_coll d1 "blogpost" (coll d1 "blogpost" ++ seed_records w1)).
  set (w2 := mkWorld (Some d2) (w_clock w1) (9 + w_ticks w1) (w_rand w1) (3 + w_draws w1)).
  assert (Hcoll2 : coll d2 "blogpost" = (seed_records w ++ seed_records w1)%list).
  { unfold d2. rewrite coll_set_coll. unfold d1. rewrite coll_set_coll.
    now rewrite Hempty. }
  assert (Hfind : find "blogpost" [("published", VBool true)] d2
                  = map materialise (seed_records w ++ seed_records w1)).
  { unfold find. rewrite Hcoll2, List.map_app, List.filter_app.
    now rewrite !seed_records_listed. }
  exists w1, w2, d2. eexists. split.
  { unfold count_posts, count_documents. rewrite (with_db_run _ w d) by assumption.
    unfold ret. now rewrite find_all, Hempty. }
  split; [now apply seed_if_empty_run|].
  split; [now apply (seed_if_empty_run w1 d1)|].
  split; [reflexivity|]. split; [exact Hcoll2|].
  split; [rewrite Hcoll2, length_app, !seed_records_length; reflexivity|].
  split.
  - unfold published_posts, get_documents, with_gateway, bind, ret.
    cbn [w_db w2]. replace (reachable d2) with true by (symmetry; exact Hr).
    rewrite Hfind. reflexivity.
  - cbn [resp_items]. rewrite length_map, length_take, length_map, length_app.
    rewrite !seed_records_length. lia.
Qed.

End HandlerProperties.

(** * The diagnostic route *)

Section DiagnosticsProperties.

Variable exn_str : Exn -> string.
Variable env_DATABASE_URL : option string.
Variable env_DATABASE_NAME : option string.

Local Abbreviation probe_of f := (f exn_str env_DATABASE_URL env_DATABASE_NAME).
Local Abbreviation start := (initial_response env_DATABASE_URL env_DATABASE_NAME).

Lemma utf8_take_length n s : utf8_length (utf8_take n s) <= n.
Proof.
  revert n. induction s as [|a s IH]; intros n; [cbn; lia|].
  cbn [utf8_take]. destruct (is_continuation a) eqn:Ha.
  - cbn [utf8_length]. rewrite Ha. apply IH.
  - destruct n as [|n]; [cbn; lia|].
    cbn [utf8_length]. rewrite Ha. specialize (IH n). lia.
Qed.

Lemma probe_uninitialised w :
  w_db w = None ->
  probe_of test_database w
  = (Ok (<["database" := VStr "⚠️ Available but not initialized"]> start), w).
Proof.
  intros Hd. unfold test_database, try_except, bind, get_db, ret. now rewrite Hd.
Qed.

Lemma probe_unreachable w d :
  w_db w = Some d -> reachable d = false ->
  probe_of test_database w
  = (Ok (<["database" :=
            VStr ("⚠️ Connected but Error: "
                  +:+ short_error exn_str (PyError "ServerSelectionTimeoutError"))]>
           (<["connection_status" := VStr "Connected"]>
              (<["database" := VStr "✅ Available"]> start))), w).
Proof.
  intros Hd Hr.
  unfold test_database, try_except, bind, get_db, list_collection_names, with_db, ret.
  rewrite Hd. cbn. now rewrite Hd, Hr.
Qed.

Lemma probe_reachable w d :
  w_db w = Some d -> reachable d = true ->
  probe_of test_database w
  = (Ok (<["database" := VStr "✅ Connected & Working"]>
           (<["collections" :=
                VList (map VStr (take 10 (map fst (map_to_list (collections d)))))]>
              (<["connection_status" := VStr "Connected"]>
                 (<["database" := VStr "✅ Available"]> start)))), w).
Proof.
  intros Hd Hr.
  unfold test_database, try_except, bind, get_db, list_collection_names, with_db, ret.
  rewrite Hd. cbn. now rewrite Hd, Hr.
Qed.

(** X10: [test_database] never raises and changes nothing, whatever the
    state of the store: it always returns a dict with the same six keys,
    [backend] is always "Running", and the [database] entry it starts
    from, "Not Available", is never what it returns. *)
Theorem test_database_never_raises w :
  exists response,
    probe_of test_database w = (Ok response, w) /\
    dom response
    = ({["backend"; "database"; "database_url"; "database_name";
         "connection_status"; "collections"]} : gset string) /\
    response !! "backend" = Some (VStr "✅ Running") /\
    response !! "database" <> Some (VStr "❌ Not Available").
Proof.
  destruct (w_db w) as [d|] eqn:Hd; [destruct (reachable d) eqn:Hr|].
  - eexists. split; [now apply (probe_reachable w d)|].
    unfold initial_response. split; [|split].
    + rewrite !dom_insert_L, dom_empty_L. set_solver.
    + by simplify_map_eq.
    + rewrite lookup_insert_eq. discriminate.
  - eexists. split; [now apply (probe_unreachable w d)|].
    unfold initial_response. split; [|split].
    + rewrite !dom_insert_L, dom_empty_L. set_solver.
    + by simplify_map_eq.
    + rewrite lookup_insert_eq. discriminate.
  - eexists. split; [now apply probe_uninitialised|].
    unfold initial_response. split; [|split].
    + rewrite !dom_insert_L, dom_empty_L. set_solver.
    + by simplify_map_eq.
    + rewrite lookup_insert_eq. discriminate.
Qed.

(** X11: what [test_database] reports follows the store: without a
    handle, "Not Connected" and no collections; with a handle,
    "Connected" even when the server cannot be reached, in which case
    [database] carries the first 80 characters of the driver's message
    (characters, not bytes) and no collections are listed; with a reachable server, at most ten
    collection names, each one a collection of the store. *)
Theorem test_database_status w response w' :
  probe_of test_database w = (Ok response, w') ->
  match w_db w with
  | None =>
      response !! "connection_status" = Some (VStr "Not Connected") /\
      response !! "database" = Some (VStr "⚠️ Available but not initialized") /\
      response !! "collections" = Some (VList [])
  | Some d =>
      response !! "connection_status" = Some (VStr "Connected") /\
      if reachable d then
        response !! "database" = Some (VStr "✅ Connected & Working") /\
        exists names,
          response !! "collections" = Some (VList (map VStr names)) /\
          length names <= 10 /\
          forall name, In name names -> is_Some (collections d !! name)
      else
        response !! "collections" = Some (VList []) /\
        exists message,
          response !! "database"
          = Some (VStr ("⚠️ Connected but Error: " +:+ message)) /\
          message = utf8_take 80 (exn_str (PyError "ServerSelectionTimeoutError")) /\
          utf8_length message <= 80
  end.
Proof.
  intros H.
  destruct (w_db w) as [d|] eqn:Hd; [destruct (reachable d) eqn:Hr|].
  - rewrite (probe_reachable w d) in H by assumption. injection H as <- _.
    unfold initial_response. split; [by simplify_map_eq|].
    split; [by simplify_map_eq|].
    exists (take 10 (map fst (map_to_list (collections d)))).
    split; [by simplify_map_eq|]. split; [rewrite length_take; lia|].
    intros name Hin. apply list_elem_of_In, elem_of_take in Hin as (i & Hi & _).
    apply list_elem_of_lookup_2, list_elem_of_In in Hi.
    apply in_map_iff in Hi as ([name' v] & Hname & Hin). cbn in Hname. subst name'.
    exists v. now apply elem_of_map_to_list, list_elem_of_In.
  - rewrite (probe_unreachable w d) in H by assumption. injection H as <- _.
    unfold initial_response. split; [by simplify_map_eq|].
    split; [by simplify_map_eq|].
    eexists. split; [by simplify_map_eq|]. split; [reflexivity|].
    apply utf8_take_length.
  - rewrite probe_uninitialised in H by assumption. injection H as <- _.
    unfold initial_response. repeat split; by simplify_map_eq.
Qed.

(** X12: [test_database] reports a connection variable as set only when
    it is set to a non-empty value: an empty [DATABASE_URL] or
    [DATABASE_NAME] reads "Not Set", like a missing one. *)
Theorem test_database_env_flags w response w' :
  probe_of test_database w = (Ok response, w') ->
  (response !! "database_url" = Some (VStr "✅ Set") <->
     exists c s, env_DATABASE_URL = Some (String c s)) /\
  (response !! "database_name" = Some (VStr "✅ Set") <->
     exists c s, env_DATABASE_NAME = Some (String c s)) /\
  (env_DATABASE_URL = Some "" ->
     response !! "database_url" = Some (VStr "❌ Not Set")) /\
  (env_DATABASE_NAME = Some "" ->
     response !! "database_name" = Some (VStr "❌ Not Set")).
Proof.
  intros H.
  assert (Hurl : response !! "database_url" = Some (set_or_not env_DATABASE_URL) /\
                 response !! "database_name" = Some (set_or_not env_DATABASE_NAME)).
  { destruct (w_db w) as [d|] eqn:Hd; [destruct (reachable d) eqn:Hr|].
    - rewrite (probe_reachable w d) in H by assumption. injection H as <- _.
      unfold initial_response. split; by simplify_map_eq.
    - rewrite (probe_unreachable w d) in H by assumption. injection H as <- _.
      unfold initial_response. split; by simplify_map_eq.
    - rewrite probe_uninitialised in H by assumption. injection H as <- _.
      unfold initial_response. split; by simplify_map_eq. }
  destruct Hurl as [-> ->]. unfold set_or_not, env_set.
  repeat split.
  - destruct env_DATABASE_URL as [[|c s]|]; [discriminate|eauto|discriminate].
  - intros (c & s & ->). reflexivity.
  - destruct env_DATABASE_NAME as [[|c s]|]; [discriminate|eauto|discriminate].
  - intros (c & s & ->). reflexivity.
  - now intros ->.
  - now intros ->.
Qed.

End DiagnosticsProperties.

(** * The further properties on concrete runs *)

Lemma create_access_token_expiry_witness :
  snd (create_access_token demo_b64url_json demo_signature None
         (<["sub" := VStr "7"]> ∅) (Some 0%Z) (demo_world None))
    = tick (demo_world None) /\
  (representable (now (demo_world None) + 604800000000) = true ->
   exists claims,
     fst (create_access_token demo_b64url_json demo_signature None
            (<["sub" := VStr "7"]> ∅) (Some 0%Z) (demo_world None))
     = Ok (jwt_encode demo_b64url_json demo_signature claims
             (JWT_SECRET None) "HS256") /\
     claims !! "exp" = Some (VDatetime (now (demo_world None) + 604800000000)) /\
     (forall k, k <> "exp" -> claims !! k = (<["sub" := VStr "7"]> ∅ : Doc) !! k)) /\
  (representable (now (demo_world None) + 604800000000) = false ->
   fst (create_access_token demo_b64url_json demo_signature None
          (<["sub" := VStr "7"]> ∅) (Some 0%Z) (demo_world None))
   = Raise (PyError "OverflowError")).
Proof.
  apply (create_access_token_expiry demo_b64url_json demo_signature None
           (<["sub" := VStr "7"]> ∅) (Some 0%Z) 604800000000%Z (demo_world None)).
  right. split; [right|]; reflexivity.
Defined.

Lemma register_hash_failure_witness :
  register demo_str picky_context demo_b64url_json demo_signature None eve
    (demo_world (Some bare_db))
  = (Raise (PyError "ValueError"), draw (demo_world (Some bare_db))) /\
  w_db (draw (demo_world (Some bare_db))) = Some bare_db.
Proof.
  apply (register_hash_failure demo_str picky_context demo_b64url_json
           demo_signature None eve (demo_world (Some bare_db)) bare_db).
  - reflexivity.
  - reflexivity.
  - vm_compute. reflexivity.
  - reflexivity.
Defined.

Lemma register_response_mirrors_record_witness :
  exists d d' sd h,
    w_db (demo_world (Some bare_db)) = Some d /\ w_db alice_world = Some d' /\
    coll d' "user" = (coll d "user" ++ [sd])%list /\
    (forall name, name <> "user" -> coll d' name = coll d name) /\
    ctx_hash demo_context (entropy (demo_world (Some bare_db))) (reg_password alice)
      = Ok h /\
    sd_fields sd !! "password_hash" = Some (VStr h) /\
    resp_user alice_response !! "_id" = Some (VStr (demo_str (VObjectId (sd_id sd)))) /\
    resp_user alice_response !! "password_hash" = None /\
    (forall k, k <> "_id" -> k <> "password_hash" ->
       k <> "created_at" -> k <> "updated_at" ->
       resp_user alice_response !! k = sd_fields sd !! k) /\
    resp_user alice_response !! "created_at"
      = Some (VDatetime (now (demo_world (Some bare_db)))) /\
    sd_fields sd !! "created_at"
      = Some (VDatetime (ms_floor (now (demo_world (Some bare_db))))) /\
    resp_user alice_response !! "updated_at"
      = Some (VDatetime (now (tick (demo_world (Some bare_db))))) /\
    sd_fields sd !! "updated_at"
      = Some (VDatetime (ms_floor (now (tick (demo_world (Some bare_db)))))).
Proof.
  apply (register_response_mirrors_record demo_str demo_context demo_b64url_json
           demo_signature None alice (demo_world (Some bare_db))
           alice_response alice_world).
  vm_compute. reflexivity.
Defined.

Lemma register_twice_conflict_witness :
  demo_register alice_again alice_world
  = (Raise (HTTPException 400 "Email already registered"), alice_world).
Proof.
  apply (register_twice_conflict demo_str demo_context demo_b64url_json
           demo_signature None alice alice_again (demo_world (Some bare_db))
           alice_response alice_world).
  - vm_compute. reflexivity.
  - reflexivity.
Defined.

Lemma auth_requests_keep_emails_unique_witness :
  emails_unique
    (fold_left (fun w req =>
                  serve demo_str demo_context demo_b64url_json demo_signature None req w)
       auth_session (demo_world (Some bare_db))).
Proof.
  apply (auth_requests_keep_emails_unique demo_str demo_context demo_b64url_json
           demo_signature None auth_session (demo_world (Some bare_db))).
  vm_compute. repeat constructor. intros Hin. inversion Hin.
Defined.

Lemma login_response_mirrors_record_witness :
  exists d before sd after,
    w_db alice_world = Some d /\
    coll d "user" = (before ++ sd :: after)%list /\
    (forall sd', In sd' before ->
       doc_matches [("email", VStr (login_email alice_login))] (materialise sd') = false) /\
    doc_matches [("email", VStr (login_email alice_login))] (materialise sd) = true /\
    resp_user alice_login_response !! "_id"
      = Some (VStr (demo_str (VObjectId (sd_id sd)))) /\
    resp_user alice_login_response !! "password_hash" = None /\
    (forall k, k <> "_id" -> k <> "password_hash" ->
       resp_user alice_login_response !! k = sd_fields sd !! k).
Proof.
  apply (login_response_mirrors_record demo_str demo_context demo_b64url_json
           demo_signature None alice_login alice_world alice_login_response
           (tick alice_world)).
  vm_compute. reflexivity.
Defined.

Lemma stored_user_fits_schema_witness :
  exists d d' sd h,
    w_db (demo_world (Some bare_db)) = Some d /\ w_db alice_world = Some d' /\
    coll d' "user" = (coll d "user" ++ [sd])%list /\
    ctx_hash demo_context (entropy (demo_world (Some bare_db))) (reg_password alice)
      = Ok h /\
    sd_fields sd
    = <["created_at" := VDatetime (ms_floor (now (demo_world (Some bare_db))))]>
        (<["updated_at" :=
             VDatetime (ms_floor (now (tick (demo_world (Some bare_db)))))]>
           (User (reg_name alice) (reg_email alice) h None None None)).
Proof.
  apply (stored_user_fits_schema demo_str demo_context demo_b64url_json
           demo_signature None alice (demo_world (Some bare_db))
           alice_response alice_world).
  vm_compute. reflexivity.
Defined.

Lemma auth_http_errors_witness :
  (forall payload w status detail,
      fst (demo_register payload w) = Raise (HTTPException status detail) ->
      (status, detail) = (500%Z, "Database not available") \/
      (status, detail) = (400%Z, "Email already registered")) /\
  (forall payload w status detail,
      fst (demo_login payload w) = Raise (HTTPException status detail) ->
      (status, detail) = (500%Z, "Database not available") \/
      (status, detail) = (400%Z, "Invalid credentials")).
Proof.
  apply (auth_http_errors demo_str demo_context demo_b64url_json demo_signature None).
  - intros salt p status detail. unfold demo_context, bcrypt_context.
    cbn [ctx_hash]. unfold bcrypt_hash, bcrypt_digest, check_secret, demo_raw.
    destruct (N.ltb _ _); [discriminate|].
    destruct (has_nul p); discriminate.
  - intros p h status detail. unfold demo_context, bcrypt_context.
    cbn [ctx_verify]. unfold bcrypt_verify.
    destruct h; try discriminate.
    destruct (bcrypt_ident_of s); [|discriminate].
    destruct (bcrypt_parse _ s) as [[config chk]|]; [|discriminate].
    unfold bcrypt_digest, check_secret, demo_raw.
    destruct (N.ltb _ _); [discriminate|].
    destruct (has_nul p); discriminate.
Defined.

Lemma list_blogs_without_seeding_witness :
  exists r,
    demo_list_blogs 6 (demo_world (Some draft_db)) = (Ok r, demo_world (Some draft_db)) /\
    length (resp_items r) <= length (coll draft_db "blogpost") /\
    ((forall sd, In sd (coll draft_db "blogpost") ->
        doc_matches [("published", VBool true)] (materialise sd) = false) ->
     resp_items r = []).
Proof.
  apply (list_blogs_without_seeding demo_str 6 (demo_world (Some draft_db)) draft_db).
  - reflexivity.
  - reflexivity.
  - vm_compute. discriminate.
Defined.

Lemma list_blogs_seeding_race_witness :
  exists w1 w2 d2 r,
    count_posts (demo_world (Some empty_db)) = (Ok 0, demo_world (Some empty_db)) /\
    seed_if_empty 0 (demo_world (Some empty_db)) = (Ok tt, w1) /\
    seed_if_empty 0 w1 = (Ok tt, w2) /\
    w_db w2 = Some d2 /\
    coll d2 "blogpost"
      = (seed_records (demo_world (Some empty_db)) ++ seed_records w1)%list /\
    length (coll d2 "blogpost") = 6 /\
    published_posts demo_str 6 w2 = (Ok r, w2) /\
    length (resp_items r) = 6.
Proof.
  apply (list_blogs_seeding_race demo_str (demo_world (Some empty_db)) empty_db 6).
  - reflexivity.
  - reflexivity.
  - vm_compute. reflexivity.
  - lia.
Defined.

Lemma test_database_status_witness :
  unreachable_probe !! "connection_status" = Some (VStr "Connected") /\
  unreachable_probe !! "collections" = Some (VList []) /\
  exists message,
    unreachable_probe !! "database"
    = Some (VStr ("⚠️ Connected but Error: " +:+ message)) /\
    message = utf8_take 80 (demo_exn_str (PyError "ServerSelectionTimeoutError")) /\
    utf8_length message <= 80.
Proof.
  apply (test_database_status demo_exn_str (Some "") None
           (demo_world (Some unreachable_db)) unreachable_probe
           (demo_world (Some unreachable_db))).
  vm_compute. reflexivity.
Defined.

Lemma test_database_env_flags_witness :
  unreachable_probe !! "database_url" = Some (VStr "❌ Not Set") /\
  unreachable_probe !! "database_name" <> Some (VStr "✅ Set").
Proof.
  destruct (test_database_env_flags demo_exn_str (Some "") None
              (demo_world (Some unreachable_db)) unreachable_probe
              (demo_world (Some unreachable_db)))
    as (_ & Hname & Hurl & _).
  - vm_compute. reflexivity.
  - split; [now apply Hurl|].
    intros H. apply Hname in H as (c & s & H). discriminate.
Defined.
